(** * Book Finder: session controller and collection stores

    A shallow embedding of the state owned by [App] in [src/App.js]
    (search query, result list, pagination cursor, loading and error flags,
    bookmarks and reading list) and of the handlers that change it, together
    with the identity derivation shared with [BookCard].

    React state is modelled as an explicit record that every handler maps to
    a new record.  The part of [fetchBooks] that runs after its [await]s is a
    separate transition, applied when the response of an outstanding request
    arrives; the requests that are outstanding are kept in the record. *)

From Stdlib Require Import List ZArith NArith Bool String Ascii Lia DecimalString.
From Stdlib Require DecimalZ.
Import ListNotations.

(** ** JavaScript strings and primitive values *)

Module Js.

(** A JavaScript string is a sequence of UTF-16 code units. *)
Definition jsstring := list N.

(** String literals of the source, all of them ASCII. *)
Definition str (s : string) : jsstring :=
  map N_of_ascii (list_ascii_of_string s).

(** [WhiteSpace] and [LineTerminator] of ECMAScript: what
    [String.prototype.trim] strips. *)
Definition is_white_space (c : N) : bool :=
  ((c =? 9) || (c =? 10) || (c =? 11) || (c =? 12) || (c =? 13) ||
   (c =? 32) || (c =? 160) || (c =? 5760) ||
   ((8192 <=? c) && (c <=? 8202)) ||
   (c =? 8232) || (c =? 8233) || (c =? 8239) || (c =? 8287) ||
   (c =? 12288) || (c =? 65279))%N.

Fixpoint trimStart (s : jsstring) : jsstring :=
  match s with
  | [] => []
  | c :: r => if is_white_space c then trimStart r else s
  end.

Definition trimEnd (s : jsstring) : jsstring := rev (trimStart (rev s)).

Definition trim (s : jsstring) : jsstring := trimEnd (trimStart s).

(** Surrogate code units, and [String.prototype.isWellFormed]: no
    surrogate stands alone.  [encodeURIComponent] throws a [URIError] on
    exactly the strings that are not well formed. *)
Definition isHighSurrogate (c : N) : bool := ((55296 <=? c) && (c <=? 56319))%N.

Definition isLowSurrogate (c : N) : bool := ((56320 <=? c) && (c <=? 57343))%N.

Fixpoint isWellFormed (s : jsstring) : bool :=
  match s with
  | [] => true
  | c :: r =>
      if isHighSurrogate c then
        match r with
        | d :: r' => isLowSurrogate d && isWellFormed r'
        | [] => false
        end
      else if isLowSurrogate c then false
      else isWellFormed r
  end.

(** Truthiness of a string: the empty string is the only falsy one. *)
Definition truthy_string (s : jsstring) : bool :=
  match s with [] => false | _ :: _ => true end.

(** [!s.trim()] *)
Definition blank (s : jsstring) : bool := negb (truthy_string (trim s)).

Definition jsstring_eqb (a b : jsstring) : bool :=
  if list_eq_dec N.eq_dec a b then true else false.

(** [`${n}`] for an integer [n] (a page number, an HTTP status). *)
Definition of_Z (n : Z) : jsstring := str (NilZero.string_of_int (Z.to_int n)).

(** The primitive values a field of a parsed JSON record can hold;
    [Undefined] is what reading an absent field gives. *)
Inductive value : Type :=
| Undefined
| Null
| Boolean (b : bool)
| Number (n : Z)
| Str (s : jsstring).

Definition truthy (v : value) : bool :=
  match v with
  | Undefined | Null => false
  | Boolean b => b
  | Number n => negb (n =? 0)%Z
  | Str s => truthy_string s
  end.

(** [a || b] *)
Definition logical_or (a b : value) : value := if truthy a then a else b.

(** [a === b] *)
Definition strict_eq (a b : value) : bool :=
  match a, b with
  | Undefined, Undefined => true
  | Null, Null => true
  | Boolean x, Boolean y => Bool.eqb x y
  | Number x, Number y => (x =? y)%Z
  | Str x, Str y => jsstring_eqb x y
  | _, _ => false
  end.

End Js.

Import Js.

(** ** Records of the catalogue *)

(** A document of the [docs] array, with the fields the application reads.
    [addedDate] is the field [addToReadingList] adds to its copy. *)
Record Book : Type := mkBook {
  key : value;
  title : value;
  author_name : option (list jsstring);
  first_publish_year : value;
  cover_i : value;
  addedDate : value
}.

(** [book.key || book.title] *)
Definition bookId (book : Book) : value := logical_or (key book) (title book).

(** [b => (b.key || b.title) === bookId] *)
Definition hasId (id : value) (b : Book) : bool := strict_eq (bookId b) id.

(** A record that carries neither [key] nor [title]. *)
Definition unidentified (b : Book) : Prop :=
  key b = Undefined /\ title b = Undefined.

(** ** Collection stores *)

(** [list.some(b => (b.key || b.title) === id)] *)
Definition contains (store : list Book) (id : value) : bool :=
  existsb (hasId id) store.

Definition toggleBookmark (book : Book) (prev : list Book) : list Book :=
  let id := bookId book in
  let isBookmarked := existsb (hasId id) prev in
  if isBookmarked then filter (fun b => negb (hasId id b)) prev
  else prev ++ [book].

(** [{ ...book, addedDate: now }] *)
Definition withAddedDate (now : jsstring) (book : Book) : Book :=
  {| key := key book;
     title := title book;
     author_name := author_name book;
     first_publish_year := first_publish_year book;
     cover_i := cover_i book;
     addedDate := Str now |}.

(** [now] stands for [new Date().toISOString()]. *)
Definition addToReadingList (now : jsstring) (book : Book) (prev : list Book)
  : list Book :=
  let id := bookId book in
  let isInList := existsb (hasId id) prev in
  if negb isInList then prev ++ [withAddedDate now book] else prev.

Definition removeFromReadingList (id : value) (prev : list Book) : list Book :=
  filter (fun b => negb (hasId id b)) prev.

(** The stores start empty and change only through these calls. *)
Inductive BookmarkOp : Type :=
| Toggle (book : Book).

Inductive ReadingListOp : Type :=
| Add (now : jsstring) (book : Book)
| Remove (id : value).

Definition applyBookmarkOp (prev : list Book) (op : BookmarkOp) : list Book :=
  match op with Toggle book => toggleBookmark book prev end.

Definition applyReadingListOp (prev : list Book) (op : ReadingListOp)
  : list Book :=
  match op with
  | Add now book => addToReadingList now book prev
  | Remove id => removeFromReadingList id prev
  end.

Definition bookmarksAfter (ops : list BookmarkOp) : list Book :=
  fold_left applyBookmarkOp ops [].

Definition readingListAfter (ops : list ReadingListOp) : list Book :=
  fold_left applyReadingListOp ops [].

(** ** Session state *)

Inductive SearchType : Type := TitleSearch | AuthorSearch | SubjectSearch.

(** The values of the filter inputs; the empty string means "not set". *)
Record Filters : Type := mkFilters {
  yearFrom : jsstring;
  yearTo : jsstring;
  language : jsstring;
  subject : jsstring
}.

Definition noFilters : Filters :=
  {| yearFrom := []; yearTo := []; language := []; subject := [] |}.

(** What a call of [fetchBooks] keeps in its closure across the [await]s:
    its four arguments and the [filters] it was created with. *)
Record Request : Type := mkRequest {
  rq_query : jsstring;
  rq_type : SearchType;
  rq_page : Z;
  rq_append : bool;
  rq_filters : Filters
}.

(** The [useState] cells of [App] that the controller reads or writes, and
    the requests whose response has not arrived yet, oldest first. *)
Record State : Type := mkState {
  searchQuery : jsstring;
  searchType : SearchType;
  books : list Book;
  loading : bool;
  error : option jsstring;
  currentPage : Z;
  hasMoreResults : bool;
  filters : Filters;
  inflight : list Request
}.

Definition initialState : State :=
  {| searchQuery := [];
     searchType := TitleSearch;
     books := [];
     loading := false;
     error := None;
     currentPage := 1;
     hasMoreResults := false;
     filters := noFilters;
     inflight := [] |}.

Definition setSearchQuery (v : jsstring) (s : State) : State :=
  mkState v (searchType s) (books s) (loading s) (error s) (currentPage s)
          (hasMoreResults s) (filters s) (inflight s).

Definition setSearchType (v : SearchType) (s : State) : State :=
  mkState (searchQuery s) v (books s) (loading s) (error s) (currentPage s)
          (hasMoreResults s) (filters s) (inflight s).

Definition setBooks (v : list Book) (s : State) : State :=
  mkState (searchQuery s) (searchType s) v (loading s) (error s)
          (currentPage s) (hasMoreResults s) (filters s) (inflight s).

Definition setLoading (v : bool) (s : State) : State :=
  mkState (searchQuery s) (searchType s) (books s) v (error s)
          (currentPage s) (hasMoreResults s) (filters s) (inflight s).

Definition setError (v : option jsstring) (s : State) : State :=
  mkState (searchQuery s) (searchType s) (books s) (loading s) v
          (currentPage s) (hasMoreResults s) (filters s) (inflight s).

Definition setCurrentPage (v : Z) (s : State) : State :=
  mkState (searchQuery s) (searchType s) (books s) (loading s) (error s) v
          (hasMoreResults s) (filters s) (inflight s).

Definition setHasMoreResults (v : bool) (s : State) : State :=
  mkState (searchQuery s) (searchType s) (books s) (loading s) (error s)
          (currentPage s) v (filters s) (inflight s).

Definition setFilters (v : Filters) (s : State) : State :=
  mkState (searchQuery s) (searchType s) (books s) (loading s) (error s)
          (currentPage s) (hasMoreResults s) v (inflight s).

Definition setInflight (v : list Request) (s : State) : State :=
  mkState (searchQuery s) (searchType s) (books s) (loading s) (error s)
          (currentPage s) (hasMoreResults s) (filters s) v.

(** The status the view derives from the two flags. *)
Inductive Status : Type := Idle | Loading | Failed.

Definition status (s : State) : Status :=
  if loading s then Loading
  else match error s with Some _ => Failed | None => Idle end.

(** ** The search request *)

Definition pageSize : nat := 12.

Definition searchParam (type : SearchType) : jsstring :=
  match type with
  | AuthorSearch => str "author"
  | SubjectSearch => str "subject"
  | TitleSearch => str "title"
  end.

(** The URL [fetchBooks] builds; [encodeURIComponent] is the host's, and is
    only reached here with a query it accepts. *)
Definition apiUrl (encodeURIComponent : jsstring -> jsstring) (rq : Request)
  : jsstring :=
  let url :=
    str "https://openlibrary.org/search.json?" ++ searchParam (rq_type rq)
    ++ str "=" ++ encodeURIComponent (rq_query rq)
    ++ str "&page=" ++ of_Z (rq_page rq) ++ str "&limit=12" in
  let url :=
    if truthy_string (yearFrom (rq_filters rq))
    then url ++ str "&first_publish_year[from]=" ++ yearFrom (rq_filters rq)
    else url in
  let url :=
    if truthy_string (yearTo (rq_filters rq))
    then url ++ str "&first_publish_year[to]=" ++ yearTo (rq_filters rq)
    else url in
  if truthy_string (language (rq_filters rq))
  then url ++ str "&language=" ++ language (rq_filters rq)
  else url.

(** How an outstanding request ends. *)
Inductive Outcome : Type :=
| Rejected (message : jsstring)
    (** [fetch] rejects: the transport failed *)
| NotOk (httpStatus : Z)
    (** a response whose [ok] is false *)
| BadJson (message : jsstring)
    (** [response.json()] rejects, or reading [data.docs] throws *)
| Json (docs : option (list Book)).
    (** the parsed body; [None] when [data.docs] is absent *)

(** [err.message] of what the [try] block throws, if it throws. *)
Definition thrown (o : Outcome) : option jsstring :=
  match o with
  | Rejected message => Some message
  | NotOk httpStatus => Some (str "HTTP error! status: " ++ of_Z httpStatus)
  | BadJson message => Some message
  | Json _ => None
  end.

(** ** [fetchBooks] *)

(** [err.message] of the [URIError] that [encodeURIComponent] throws; the
    wording is the engine's, here V8's. *)
Definition uriErrorMessage : jsstring := str "URI malformed".

(** Up to the first [await]: the guard, the two flags, and the request sent.
    When [encodeURIComponent(query)] throws, nothing is sent: the [catch] and
    the [finally] run before the call returns. *)
Definition fetchBooks (query : jsstring) (type : SearchType) (page : Z)
  (append : bool) (s : State) : State :=
  if blank query then s
  else
    let s := setLoading true s in
    let s := setError None s in
    if isWellFormed query then
      setInflight
        (inflight s ++ [mkRequest query type page append (filters s)]) s
    else
      let s :=
        setError (Some (str "Failed to fetch books: " ++ uriErrorMessage)) s in
      let s := if negb append then setBooks [] s else s in
      setLoading false s.

(** From the response on: the [try] body after the [await]s, the [catch]
    and the [finally]. *)
Definition fetchBooksSettle (rq : Request) (o : Outcome) (s : State) : State :=
  let s :=
    match thrown o with
    | None =>
        match o with
        | Json (Some ((_ :: _) as newBooks)) =>
            let s :=
              setBooks (if rq_append rq then books s ++ newBooks
                        else newBooks) s in
            let s :=
              setHasMoreResults (Nat.eqb (List.length newBooks) 12) s in
            setCurrentPage (rq_page rq) s
        | _ =>
            let s := if negb (rq_append rq) then setBooks [] s else s in
            setHasMoreResults false s
        end
    | Some message =>
        let s := setError (Some (str "Failed to fetch books: " ++ message)) s in
        if negb (rq_append rq) then setBooks [] s else s
    end in
  setLoading false s.

(** ** Handlers *)

Definition handleSearch (s : State) : State :=
  if truthy_string (trim (searchQuery s)) then
    let s := setCurrentPage 1 s in
    fetchBooks (searchQuery s) (searchType s) 1 false s
  else s.

Definition handleLoadMore (s : State) : State :=
  if hasMoreResults s && negb (loading s) then
    fetchBooks (searchQuery s) (searchType s) (currentPage s + 1) true s
  else s.

Definition handleSearchTypeChange (v : SearchType) (s : State) : State :=
  let s := setSearchType v s in
  let s := setBooks [] s in
  let s := setCurrentPage 1 s in
  setHasMoreResults false s.

Definition handleQuickSearch (type : SearchType) (query : jsstring) (s : State)
  : State :=
  let s := setSearchType type s in
  let s := setSearchQuery query s in
  let s := setCurrentPage 1 s in
  fetchBooks query type 1 false s.

(** ** Runs *)

(** What can happen to the session: a user action, or the response of the
    [i]-th outstanding request arriving.  [ChangeFilters] carries the filters
    as [handleFilterChange] or [clearFilters] leaves them. *)
Inductive Event : Type :=
| Type_ (text : jsstring)
| Submit
| LoadMore
| ChangeSearchType (v : SearchType)
| QuickSearch (type : SearchType) (query : jsstring)
| ChangeFilters (v : Filters)
| Arrive (i : nat) (o : Outcome).

Definition step (s : State) (e : Event) : State :=
  match e with
  | Type_ text => setSearchQuery text s
  | Submit => handleSearch s
  | LoadMore => handleLoadMore s
  | ChangeSearchType v => handleSearchTypeChange v s
  | QuickSearch type query => handleQuickSearch type query s
  | ChangeFilters v => setFilters v s
  | Arrive i o =>
      match nth_error (inflight s) i with
      | Some rq =>
          fetchBooksSettle rq o
            (setInflight (firstn i (inflight s) ++ skipn (S i) (inflight s)) s)
      | None => s
      end
  end.

Definition run (s : State) (es : list Event) : State := fold_left step es s.

(** The records of a parsed body: none when [docs] is absent. *)
Definition batch (docs : option (list Book)) : list Book :=
  match docs with Some l => l | None => [] end.

Definition nonEmptyBatch (docs : option (list Book)) : bool :=
  negb (Nat.eqb (List.length (batch docs)) 0).

(** A search from the form, followed by the arrival of its response. *)
Definition searchRound (o : Outcome) (s : State) : State :=
  run s [Submit; Arrive (List.length (inflight s)) o].

(** A click on "Load More", followed by the arrival of its response. *)
Definition loadMoreRound (o : Outcome) (s : State) : State :=
  run s [LoadMore; Arrive (List.length (inflight s)) o].

(** Whether a handler, taking [s] to [s'], sent a request. *)
Definition issuedFetch (s s' : State) : bool :=
  Nat.eqb (List.length (inflight s')) (S (List.length (inflight s))).

(** One "Load More" round per batch, each of which sends its request and
    receives that batch; [None] as soon as a click sends nothing. *)
Fixpoint loadMoreRounds (s : State) (batches : list (option (list Book)))
  : option State :=
  match batches with
  | [] => Some s
  | docs :: rest =>
      if issuedFetch s (handleLoadMore s)
      then loadMoreRounds (loadMoreRound (Json docs) s) rest
      else None
  end.

(** Runs in which a search, from the form or from a suggestion, is only
    started while nothing is loading. *)
Fixpoint searchesOnlyWhenIdle (s : State) (es : list Event) : bool :=
  match es with
  | [] => true
  | e :: rest =>
      match e with
      | Submit | QuickSearch _ _ => negb (loading s)
      | _ => true
      end && searchesOnlyWhenIdle (step s e) rest
  end.

(** The outstanding requests are as many as the [loading] flag tells. *)
Definition inflightMatchesLoading (s : State) : Prop :=
  List.length (inflight s) = if loading s then 1%nat else 0%nat.

(** ** Filters *)

(** The keys of the [filters] object. *)
Inductive FilterName : Type := YearFrom | YearTo | Language | Subject.

(** [setFilters(prev => ({ ...prev, [filterName]: value }))] *)
Definition handleFilterChange (filterName : FilterName) (v : jsstring)
  (s : State) : State :=
  let prev := filters s in
  setFilters
    match filterName with
    | YearFrom => mkFilters v (yearTo prev) (language prev) (subject prev)
    | YearTo => mkFilters (yearFrom prev) v (language prev) (subject prev)
    | Language => mkFilters (yearFrom prev) (yearTo prev) v (subject prev)
    | Subject => mkFilters (yearFrom prev) (yearTo prev) (language prev) v
    end s.

Definition clearFilters (s : State) : State := setFilters noFilters s.

(** What the filters add to the URL, after [limit=12]. *)
Definition filterParams (f : Filters) : jsstring :=
  (if truthy_string (yearFrom f)
   then str "&first_publish_year[from]=" ++ yearFrom f else [])
  ++ (if truthy_string (yearTo f)
      then str "&first_publish_year[to]=" ++ yearTo f else [])
  ++ (if truthy_string (language f)
      then str "&language=" ++ language f else []).

(** ** Quick search suggestions *)

Record Suggestion : Type := mkSuggestion {
  sg_type : SearchType;
  sg_query : jsstring;
  sg_label : jsstring
}.

Definition quickSearchSuggestions : list Suggestion :=
  [ mkSuggestion SubjectSearch (str "computer science") (str "Computer Science");
    mkSuggestion SubjectSearch (str "mathematics") (str "Mathematics");
    mkSuggestion SubjectSearch (str "psychology") (str "Psychology");
    mkSuggestion SubjectSearch (str "literature") (str "Literature");
    mkSuggestion SubjectSearch (str "history") (str "History");
    mkSuggestion AuthorSearch (str "Stephen King") (str "Stephen King");
    mkSuggestion TitleSearch (str "1984") (str "1984 by Orwell");
    mkSuggestion TitleSearch (str "Harry Potter") (str "Harry Potter Series") ].

(** ** What the view shows *)

(** [error && ...] *)
Definition truthy_error (e : option jsstring) : bool :=
  match e with Some m => truthy_string m | None => false end.

(** [disabled={loading || !searchQuery.trim()}] of the submit button *)
Definition submitDisabled (s : State) : bool :=
  loading s || blank (searchQuery s).

Definition showsError (s : State) : bool := truthy_error (error s).

(** [books.length > 0 && ...] *)
Definition showsResults (s : State) : bool :=
  negb (Nat.eqb (List.length (books s)) 0).

(** The "Load More" button sits in the results section. *)
Definition showsLoadMore (s : State) : bool :=
  showsResults s && hasMoreResults s.

Definition loadMoreDisabled (s : State) : bool := loading s.

(** [!loading && books.length === 0 && searchQuery && !error] *)
Definition showsNoResults (s : State) : bool :=
  negb (loading s) && Nat.eqb (List.length (books s)) 0
  && truthy_string (searchQuery s) && negb (truthy_error (error s)).

(** [!loading && books.length === 0 && !searchQuery] *)
Definition showsWelcome (s : State) : bool :=
  negb (loading s) && Nat.eqb (List.length (books s)) 0
  && negb (truthy_string (searchQuery s)).

(** ** [BookCard] *)

Definition isBookmarked (book : Book) (bookmarks : list Book) : bool :=
  existsb (hasId (bookId book)) bookmarks.

Definition isInReadingList (book : Book) (readingList : list Book) : bool :=
  existsb (hasId (bookId book)) readingList.

(** ** What the view can deliver *)

Definition searchType_eqb (a b : SearchType) : bool :=
  match a, b with
  | TitleSearch, TitleSearch => true
  | AuthorSearch, AuthorSearch => true
  | SubjectSearch, SubjectSearch => true
  | _, _ => false
  end.

(** One of the eight buttons under "Quick Search". *)
Definition isSuggestion (type : SearchType) (query : jsstring) : bool :=
  existsb
    (fun sg => searchType_eqb (sg_type sg) type
               && jsstring_eqb (sg_query sg) query)
    quickSearchSuggestions.

(** Whether the page, showing [s], lets the event happen: the form is only
    submitted through its submit button, "Load More" must be shown and
    enabled, the suggestion buttons are never disabled, and only an
    outstanding request can be answered. *)
Definition viewAllows (s : State) (e : Event) : bool :=
  match e with
  | Type_ _ | ChangeSearchType _ | ChangeFilters _ => true
  | Submit => negb (submitDisabled s)
  | LoadMore => showsLoadMore s && negb (loadMoreDisabled s)
  | QuickSearch type query => isSuggestion type query
  | Arrive i _ => Nat.ltb i (List.length (inflight s))
  end.

Fixpoint viewDelivers (s : State) (es : list Event) : bool :=
  match es with
  | [] => true
  | e :: rest => viewAllows s e && viewDelivers (step s e) rest
  end.

(** Runs in which no suggestion is clicked while a fetch is loading. *)
Fixpoint suggestionsOnlyWhenIdle (s : State) (es : list Event) : bool :=
  match es with
  | [] => true
  | e :: rest =>
      match e with
      | QuickSearch _ _ => negb (loading s)
      | _ => true
      end && suggestionsOnlyWhenIdle (step s e) rest
  end.

(** ** Invariants of runs *)

(** The page shown and the pages asked for start at 1. *)
Definition pagesFromOne (s : State) : Prop :=
  (1 <= currentPage s)%Z /\ Forall (fun rq => (1 <= rq_page rq)%Z) (inflight s).

(** More results are offered, or are on their way, only after full pages. *)
Definition fullPagesSoFar (s : State) : Prop :=
  hasMoreResults s = true \/ Exists (fun rq => rq_append rq = true) (inflight s)
  -> exists k, List.length (books s) = 12 * k.

(** ** Sample data *)

Definition sampleBook (k t : value) : Book :=
  {| key := k; title := t; author_name := None;
     first_publish_year := Undefined; cover_i := Undefined;
     addedDate := Undefined |}.

Definition dune : Book :=
  sampleBook (Str (str "/works/OL1W")) (Str (str "Dune")).

Definition emma : Book :=
  sampleBook (Str (str "/works/OL2W")) (Str (str "Emma")).

Definition ulysses : Book :=
  sampleBook (Str (str "/works/OL3W")) (Str (str "Ulysses")).

(** Two records that carry neither [key] nor [title]. *)
Definition anonymous1 : Book :=
  {| key := Undefined; title := Undefined;
     author_name := Some [str "Homer"];
     first_publish_year := Undefined; cover_i := Number 7;
     addedDate := Undefined |}.

Definition anonymous2 : Book :=
  {| key := Undefined; title := Undefined;
     author_name := Some [str "Sappho"];
     first_publish_year := Number 1925; cover_i := Undefined;
     addedDate := Undefined |}.

Definition someTime : jsstring := str "2024-05-01T10:00:00.000Z".

Definition numbered (n : nat) : Book :=
  sampleBook (Str (str "/works/OL" ++ of_Z (Z.of_nat n) ++ str "W"))
             (Str (str "Volume " ++ of_Z (Z.of_nat n))).

(** A full page, and one record more than was asked for. *)
Definition fullPage : list Book := map numbered (seq 1 12).

Definition thirteen : list Book := map numbered (seq 1 13).

(** The query typed, nothing sent yet. *)
Definition typed : State := setSearchQuery (str "dune") initialState.

(** The search sent, its response outstanding. *)
Definition searching : State := run initialState [Type_ (str "dune"); Submit].

(** The first page received, a full one. *)
Definition firstPageShown : State :=
  run initialState
      [Type_ (str "dune"); Submit; Arrive 0 (Json (Some fullPage))].

(** "Load More" is clicked, a suggestion is clicked while that request is
    outstanding, the response of the new search arrives, then the response
    of the older request. *)
Definition overtaken : list Event :=
  [LoadMore;
   QuickSearch TitleSearch (str "1984");
   Arrive 1 (Json (Some [emma]));
   Arrive 0 (Json (Some [ulysses]))].

(** Two pages shown, the request for the third outstanding. *)
Definition thirdPageLoading : State :=
  run firstPageShown [LoadMore; Arrive 0 (Json (Some fullPage)); LoadMore].

(** A text with a high surrogate that nothing follows. *)
Definition loneSurrogate : jsstring := str "dune" ++ [55357%N].

(** The first page shown, then the input changed to that text. *)
Definition malformedTyped : State :=
  setSearchQuery loneSurrogate firstPageShown.

(** A search is submitted and, before its response arrives, the suggestion
    "1984 by Orwell" is clicked. *)
Definition suggestionWhileLoading : list Event :=
  [Type_ (str "dune"); Submit; QuickSearch TitleSearch (str "1984")].

(** * Properties *)

(** ** Strings and values *)

Section JsFacts.

Lemma trimStart_nil_iff (s : jsstring) :
  trimStart s = [] <-> forallb is_white_space s = true.
Proof.
  induction s as [|c r IH]; simpl.
  - tauto.
  - destruct (is_white_space c); simpl.
    + exact IH.
    + split; discriminate.
Qed.

Lemma trimStart_white (s : jsstring) :
  forallb is_white_space (trimStart s) = true -> trimStart s = [].
Proof.
  induction s as [|c r IH]; simpl; [reflexivity|].
  destruct (is_white_space c) eqn:Hc; [exact IH|].
  simpl. rewrite Hc. discriminate.
Qed.

Lemma forallb_rev {A} (f : A -> bool) (l : list A) :
  forallb f (rev l) = forallb f l.
Proof.
  induction l as [|a l IH]; simpl; [reflexivity|].
  rewrite forallb_app, IH. simpl. rewrite andb_true_r. apply andb_comm.
Qed.

Lemma rev_nil_iff {A} (l : list A) : rev l = [] <-> l = [].
Proof.
  split; intros H.
  - rewrite <- (rev_involutive l), H. reflexivity.
  - subst. reflexivity.
Qed.

(** [trim] leaves nothing exactly when every code unit is white space. *)
Lemma trim_nil_iff (s : jsstring) :
  trim s = [] <-> forallb is_white_space s = true.
Proof.
  unfold trim, trimEnd. split; intros H.
  - apply rev_nil_iff, trimStart_nil_iff in H.
    rewrite forallb_rev in H.
    apply trimStart_nil_iff, trimStart_white, H.
  - apply trimStart_nil_iff in H. rewrite H. reflexivity.
Qed.

Lemma blank_true_iff (s : jsstring) :
  blank s = true <-> forallb is_white_space s = true.
Proof.
  rewrite <- trim_nil_iff. unfold blank.
  destruct (trim s); simpl; split; congruence.
Qed.

Lemma jsstring_eqb_eq (a b : jsstring) : jsstring_eqb a b = true <-> a = b.
Proof.
  unfold jsstring_eqb. destruct (list_eq_dec N.eq_dec a b); split; congruence.
Qed.

Lemma strict_eq_eq (a b : value) : strict_eq a b = true <-> a = b.
Proof.
  destruct a, b; simpl; split; intros H;
    try discriminate; try reflexivity.
  - apply Bool.eqb_prop in H. congruence.
  - inversion H. apply Bool.eqb_reflx.
  - apply Z.eqb_eq in H. congruence.
  - inversion H. apply Z.eqb_refl.
  - apply jsstring_eqb_eq in H. congruence.
  - inversion H. apply jsstring_eqb_eq. reflexivity.
Qed.

Lemma strict_eq_refl (a : value) : strict_eq a a = true.
Proof. apply strict_eq_eq. reflexivity. Qed.

Lemma strict_eq_neq (a b : value) : strict_eq a b = false <-> a <> b.
Proof.
  rewrite <- strict_eq_eq. destruct (strict_eq a b); split; congruence.
Qed.

End JsFacts.

(** ** Collection stores *)

Section Collections.

Lemma hasId_own (b : Book) : hasId (bookId b) b = true.
Proof. apply strict_eq_refl. Qed.

Lemma hasId_iff (id : value) (b : Book) : hasId id b = true <-> bookId b = id.
Proof. apply strict_eq_eq. Qed.

Lemma bookId_withAddedDate (now : jsstring) (b : Book) :
  bookId (withAddedDate now b) = bookId b.
Proof. reflexivity. Qed.

Lemma contains_app (l1 l2 : list Book) (id : value) :
  contains (l1 ++ l2) id = contains l1 id || contains l2 id.
Proof. apply existsb_app. Qed.

Lemma contains_In (l : list Book) (id : value) :
  contains l id = true <-> In id (map bookId l).
Proof.
  unfold contains. rewrite existsb_exists, in_map_iff.
  split; intros [b Hb]; exists b; rewrite hasId_iff in *; tauto.
Qed.

Lemma contains_false_notin (l : list Book) (id : value) :
  contains l id = false <-> ~ In id (map bookId l).
Proof.
  rewrite <- contains_In. destruct (contains l id); split; congruence.
Qed.

(** Dropping the entries of one identity. *)
Lemma contains_dropped (l : list Book) (id : value) :
  contains (filter (fun b => negb (hasId id b)) l) id = false.
Proof.
  induction l as [|b l IH]; simpl; [reflexivity|].
  destruct (hasId id b) eqn:Hb; simpl; [exact IH|].
  rewrite Hb. exact IH.
Qed.

Lemma contains_other_dropped (l : list Book) (id id' : value) :
  id' <> id ->
  contains (filter (fun b => negb (hasId id b)) l) id' = contains l id'.
Proof.
  intros Hne. induction l as [|b l IH]; simpl; [reflexivity|].
  destruct (hasId id b) eqn:Hb; simpl.
  - rewrite IH. apply hasId_iff in Hb.
    replace (hasId id' b) with false; [reflexivity|].
    symmetry. apply strict_eq_neq. congruence.
  - rewrite IH. reflexivity.
Qed.

Lemma drop_absent (l : list Book) (id : value) :
  contains l id = false -> filter (fun b => negb (hasId id b)) l = l.
Proof.
  induction l as [|b l IH]; simpl; [reflexivity|].
  intros H. apply orb_false_iff in H. destruct H as [Hb Hl].
  rewrite Hb. simpl. rewrite IH by exact Hl. reflexivity.
Qed.

Lemma map_bookId_dropped_NoDup (l : list Book) (id : value) :
  NoDup (map bookId l) ->
  NoDup (map bookId (filter (fun b => negb (hasId id b)) l)).
Proof.
  induction l as [|b l IH]; simpl; intros H; [constructor|].
  inversion H as [|x xs Hnotin Hnd]; subst.
  destruct (hasId id b); simpl; [auto|].
  constructor; [|auto].
  rewrite in_map_iff in *. intros [b' [Hid Hin]].
  apply Hnotin. exists b'. split; [exact Hid|].
  apply filter_In in Hin. tauto.
Qed.

Lemma map_bookId_snoc_NoDup (l : list Book) (b : Book) :
  NoDup (map bookId l) -> contains l (bookId b) = false ->
  NoDup (map bookId (l ++ [b])).
Proof.
  intros Hnd Hb. rewrite map_app. simpl.
  apply NoDup_rev in Hnd.
  rewrite <- (rev_involutive (map bookId l ++ [bookId b])).
  apply NoDup_rev. rewrite rev_app_distr. simpl.
  constructor; [|exact Hnd].
  rewrite <- in_rev. apply contains_false_notin, Hb.
Qed.

Lemma toggleBookmark_NoDup (book : Book) (prev : list Book) :
  NoDup (map bookId prev) -> NoDup (map bookId (toggleBookmark book prev)).
Proof.
  intros H. unfold toggleBookmark.
  destruct (existsb (hasId (bookId book)) prev) eqn:E.
  - apply map_bookId_dropped_NoDup, H.
  - apply map_bookId_snoc_NoDup; assumption.
Qed.

Lemma addToReadingList_NoDup (now : jsstring) (book : Book)
  (prev : list Book) :
  NoDup (map bookId prev) ->
  NoDup (map bookId (addToReadingList now book prev)).
Proof.
  intros H. unfold addToReadingList.
  destruct (existsb (hasId (bookId book)) prev) eqn:E; simpl; [exact H|].
  apply map_bookId_snoc_NoDup; [exact H|].
  rewrite bookId_withAddedDate. exact E.
Qed.

Lemma fold_left_invariant {A B} (P : A -> Prop) (f : A -> B -> A) :
  (forall a b, P a -> P (f a b)) ->
  forall l a, P a -> P (fold_left f l a).
Proof.
  intros Hf l. induction l as [|b l IH]; simpl; intros a Ha; auto.
Qed.

Lemma bookmarksAfter_NoDup (ops : list BookmarkOp) :
  NoDup (map bookId (bookmarksAfter ops)).
Proof.
  unfold bookmarksAfter.
  apply (fold_left_invariant (fun l => NoDup (map bookId l)));
    [|constructor].
  intros a [book] Ha. apply toggleBookmark_NoDup, Ha.
Qed.

Lemma readingListAfter_NoDup (ops : list ReadingListOp) :
  NoDup (map bookId (readingListAfter ops)).
Proof.
  unfold readingListAfter.
  apply (fold_left_invariant (fun l => NoDup (map bookId l)));
    [|constructor].
  intros a [now book|id] Ha; simpl.
  - apply addToReadingList_NoDup, Ha.
  - apply map_bookId_dropped_NoDup, Ha.
Qed.

(** In a store without duplicates an identity that is present is held by
    exactly one entry. *)
Lemma NoDup_one_entry (l : list Book) (id : value) :
  NoDup (map bookId l) -> contains l id = true ->
  List.length (filter (hasId id) l) = 1%nat.
Proof.
  induction l as [|b l IH]; simpl; intros Hnd Hc; [discriminate|].
  inversion Hnd as [|x xs Hnotin Hnd']; subst.
  destruct (hasId id b) eqn:Hb; simpl.
  - apply hasId_iff in Hb. subst id.
    apply contains_false_notin in Hnotin.
    replace (filter (hasId (bookId b)) l) with (@nil Book); [reflexivity|].
    symmetry. clear -Hnotin.
    induction l as [|c l IH]; simpl in *; [reflexivity|].
    apply orb_false_iff in Hnotin. destruct Hnotin as [Hc Hl].
    rewrite Hc. auto.
  - simpl in Hc. auto.
Qed.

End Collections.

Section CollectionClaims.

(** C8. Toggling a record twice on the bookmarks store leaves membership
    as it was: [contains] answers the same for every identity, and two
    toggles on the empty store leave it empty. *)
Theorem toggleBookmark_twice_membership (book : Book) (prev : list Book) :
  (forall id,
      contains (toggleBookmark book (toggleBookmark book prev)) id
      = contains prev id)
  /\ toggleBookmark book (toggleBookmark book []) = [].
Proof.
  split.
  - intros id. unfold toggleBookmark at 2.
    destruct (existsb (hasId (bookId book)) prev) eqn:E.
    + unfold toggleBookmark.
      fold (contains (filter (fun b => negb (hasId (bookId book) b)) prev)
                     (bookId book)).
      rewrite contains_dropped, contains_app.
      destruct (strict_eq (bookId book) id) eqn:Hid.
      * apply strict_eq_eq in Hid. subst id.
        rewrite contains_dropped. simpl. rewrite hasId_own. simpl.
        symmetry. exact E.
      * apply strict_eq_neq in Hid.
        rewrite contains_other_dropped by congruence.
        simpl. change (hasId id book) with (strict_eq (bookId book) id).
        apply strict_eq_neq in Hid. rewrite Hid.
        rewrite !orb_false_r. reflexivity.
    + unfold toggleBookmark.
      fold (contains (prev ++ [book]) (bookId book)).
      rewrite contains_app. simpl. rewrite hasId_own, orb_true_r.
      rewrite filter_app. simpl. rewrite hasId_own. simpl.
      rewrite app_nil_r, drop_absent by exact E. reflexivity.
  - unfold toggleBookmark. cbn [existsb app filter].
    rewrite hasId_own. reflexivity.
Qed.

(** C9. Adding to the reading list a record whose identity is present
    changes nothing; adding one identity twice is the same as adding it
    once and leaves exactly one entry of that identity; and neither store,
    built from the empty one by its operations, ever holds two entries of
    one identity. *)
Theorem addToReadingList_idempotent
  (prev : list Book) (now now' : jsstring) (book : Book) :
  (contains prev (bookId book) = true ->
   addToReadingList now book prev = prev)
  /\ addToReadingList now' book (addToReadingList now book prev)
     = addToReadingList now book prev
  /\ (forall ops,
        List.length
          (filter (hasId (bookId book))
             (addToReadingList now' book
                (addToReadingList now book (readingListAfter ops))))
        = 1%nat)
  /\ (forall ops, NoDup (map bookId (readingListAfter ops)))
  /\ (forall ops, NoDup (map bookId (bookmarksAfter ops))).
Proof.
  assert (Hpresent : forall l n,
             contains l (bookId book) = true ->
             addToReadingList n book l = l).
  { intros l n H. unfold addToReadingList.
    unfold contains in H. rewrite H. reflexivity. }
  assert (Hthen : forall l n,
             contains (addToReadingList n book l) (bookId book) = true).
  { intros l n. unfold addToReadingList.
    destruct (existsb (hasId (bookId book)) l) eqn:E; simpl; [exact E|].
    rewrite contains_app. simpl.
    change (hasId (bookId book) (withAddedDate n book))
      with (strict_eq (bookId book) (bookId book)).
    rewrite strict_eq_refl. apply orb_true_r. }
  split; [apply Hpresent|].
  split; [apply Hpresent, Hthen|].
  split; [|split].
  - intros ops. rewrite (Hpresent _ now') by apply Hthen.
    apply NoDup_one_entry; [|apply Hthen].
    apply addToReadingList_NoDup, readingListAfter_NoDup.
  - apply readingListAfter_NoDup.
  - apply bookmarksAfter_NoDup.
Qed.

Lemma addToReadingList_idempotent_witness :
  contains [dune; emma] (bookId dune) = true
  /\ addToReadingList someTime dune [dune; emma] = [dune; emma].
Proof.
  assert (H : contains [dune; emma] (bookId dune) = true) by reflexivity.
  split; [exact H|].
  exact (proj1 (addToReadingList_idempotent
                  [dune; emma] someTime someTime dune) H).
Defined.

(** C10. The identity falls back by truthiness: a record whose [key] is
    truthy has that key as identity, whatever its title, while a record
    whose [key] is falsy (the empty string included) has its [title] as
    identity.  A record with neither field has the identity [undefined], and
    any two such records are one member for both stores: each is found where
    the other is stored, toggling one removes the other from the bookmarks,
    and adding one to a reading list that holds the other adds nothing. *)
Theorem bookId_falls_back_by_truthiness (b1 b2 : Book) :
  (truthy (key b1) = true -> bookId b1 = key b1)
  /\ (truthy (key b1) = true -> truthy (key b2) = true ->
      hasId (bookId b1) b2 = strict_eq (key b2) (key b1))
  /\ (truthy (key b1) = false -> bookId b1 = title b1)
  /\ (key b1 = Str [] -> bookId b1 = title b1)
  /\ (unidentified b1 -> bookId b1 = Undefined)
  /\ (unidentified b1 -> unidentified b2 ->
      forall (store : list Book) (now : jsstring),
        In b2 store ->
        contains store (bookId b1) = true
        /\ ~ In b2 (toggleBookmark b1 store)
        /\ addToReadingList now b1 store = store).
Proof.
  assert (Hk : forall b, truthy (key b) = true -> bookId b = key b).
  { intros b H. unfold bookId, logical_or. rewrite H. reflexivity. }
  assert (H0 : truthy (key b1) = false -> bookId b1 = title b1).
  { intros H. unfold bookId, logical_or. rewrite H. reflexivity. }
  assert (H1 : forall b, unidentified b -> bookId b = Undefined).
  { intros b [Hk' Ht]. unfold bookId, logical_or. rewrite Hk'. exact Ht. }
  split; [apply Hk|].
  split; [intros T1 T2; unfold hasId; rewrite (Hk _ T1), (Hk _ T2);
          reflexivity|].
  split; [exact H0|].
  split; [intros H; apply H0; rewrite H; reflexivity|].
  split; [apply H1|].
  intros U1 U2 store now Hin.
  assert (Hc : contains store (bookId b1) = true).
  { apply contains_In, in_map_iff. exists b2.
    rewrite (H1 _ U1), (H1 _ U2). auto. }
  split; [exact Hc|]. split.
  - unfold toggleBookmark. unfold contains in Hc. rewrite Hc.
    intros Hf. apply filter_In in Hf. destruct Hf as [_ Hf].
    unfold hasId in Hf. rewrite (H1 _ U1), (H1 _ U2) in Hf. discriminate.
  - unfold addToReadingList. unfold contains in Hc. rewrite Hc. reflexivity.
Qed.

Lemma bookId_falls_back_by_truthiness_witness :
  truthy (key dune) = true
  /\ bookId dune = Str (str "/works/OL1W")
  /\ truthy (key (sampleBook (Str []) (Str (str "Dune")))) = false
  /\ bookId (sampleBook (Str []) (Str (str "Dune"))) = Str (str "Dune")
  /\ unidentified anonymous1 /\ unidentified anonymous2
  /\ In anonymous2 [dune; anonymous2]
  /\ contains [dune; anonymous2] (bookId anonymous1) = true
  /\ ~ In anonymous2 (toggleBookmark anonymous1 [dune; anonymous2])
  /\ addToReadingList someTime anonymous1 [dune; anonymous2]
     = [dune; anonymous2].
Proof.
  assert (T : truthy (key dune) = true) by reflexivity.
  assert (F : truthy (key (sampleBook (Str []) (Str (str "Dune")))) = false)
    by reflexivity.
  assert (U1 : unidentified anonymous1) by (split; reflexivity).
  assert (U2 : unidentified anonymous2) by (split; reflexivity).
  assert (Hin : In anonymous2 [dune; anonymous2]) by (simpl; auto).
  split; [exact T|].
  split; [exact (proj1 (bookId_falls_back_by_truthiness dune dune) T)|].
  split; [exact F|].
  split; [exact (proj1 (proj2 (proj2
                   (bookId_falls_back_by_truthiness
                      (sampleBook (Str []) (Str (str "Dune"))) dune))) F)|].
  split; [exact U1|]. split; [exact U2|]. split; [exact Hin|].
  exact (proj2 (proj2 (proj2 (proj2 (proj2
           (bookId_falls_back_by_truthiness anonymous1 anonymous2)))))
           U1 U2 [dune; anonymous2] someTime Hin).
Defined.

End CollectionClaims.

(** ** The controller *)

Section ControllerFacts.

Lemma blank_false_truthy (q : jsstring) :
  blank q = false <-> truthy_string (trim q) = true.
Proof.
  unfold blank. destruct (truthy_string (trim q)); simpl;
    intuition congruence.
Qed.

Lemma fetchBooks_blank q type page append s :
  blank q = true -> fetchBooks q type page append s = s.
Proof. intros H. unfold fetchBooks. rewrite H. reflexivity. Qed.

Lemma fetchBooks_sent q type page append s :
  blank q = false -> isWellFormed q = true ->
  fetchBooks q type page append s
  = setInflight (inflight s ++ [mkRequest q type page append (filters s)])
      (setError None (setLoading true s)).
Proof. intros H Hw. unfold fetchBooks. rewrite H, Hw. reflexivity. Qed.

(** [encodeURIComponent] throws: the error is reported at once. *)
Lemma fetchBooks_malformed q type page append s :
  blank q = false -> isWellFormed q = false ->
  fetchBooks q type page append s
  = setLoading false
      ((if negb append then setBooks [] else fun s' => s')
         (setError (Some (str "Failed to fetch books: " ++ uriErrorMessage))
            s)).
Proof.
  intros H Hw. unfold fetchBooks. rewrite H, Hw.
  destruct append; destruct s; reflexivity.
Qed.

Lemma handleSearch_blank s :
  blank (searchQuery s) = true -> handleSearch s = s.
Proof.
  intros H. unfold handleSearch. unfold blank in H.
  destruct (truthy_string (trim (searchQuery s))); [discriminate|reflexivity].
Qed.

Lemma handleSearch_sent s :
  blank (searchQuery s) = false -> isWellFormed (searchQuery s) = true ->
  handleSearch s
  = setInflight
      (inflight s
       ++ [mkRequest (searchQuery s) (searchType s) 1 false (filters s)])
      (setError None (setLoading true (setCurrentPage 1 s))).
Proof.
  intros H Hw. unfold handleSearch.
  rewrite (proj1 (blank_false_truthy _) H).
  cbv zeta. rewrite fetchBooks_sent by first [exact H | exact Hw].
  reflexivity.
Qed.

Lemma handleLoadMore_sent s :
  hasMoreResults s = true -> loading s = false ->
  blank (searchQuery s) = false -> isWellFormed (searchQuery s) = true ->
  handleLoadMore s
  = setInflight
      (inflight s
       ++ [mkRequest (searchQuery s) (searchType s) (currentPage s + 1) true
             (filters s)])
      (setError None (setLoading true s)).
Proof.
  intros Hm Hl Hq Hw. unfold handleLoadMore. rewrite Hm, Hl. simpl.
  apply fetchBooks_sent; assumption.
Qed.

Lemma handleLoadMore_idle s :
  hasMoreResults s && negb (loading s) && negb (blank (searchQuery s))
  = false ->
  handleLoadMore s = s.
Proof.
  intros H. unfold handleLoadMore.
  destruct (hasMoreResults s && negb (loading s)); [|reflexivity].
  simpl in H. apply negb_false_iff in H. apply fetchBooks_blank, H.
Qed.

Lemma fetchBooksSettle_inflight rq o s :
  inflight (fetchBooksSettle rq o s) = inflight s.
Proof.
  unfold fetchBooksSettle.
  destruct o as [m|st|m|[[|b l]|]]; simpl;
    destruct (rq_append rq); reflexivity.
Qed.

Lemma fetchBooksSettle_loading rq o s :
  loading (fetchBooksSettle rq o s) = false.
Proof. reflexivity. Qed.

Lemma nth_error_last {A} (l : list A) (a : A) :
  nth_error (l ++ [a]) (List.length l) = Some a.
Proof.
  rewrite nth_error_app2 by lia. rewrite Nat.sub_diag. reflexivity.
Qed.

Lemma remove_last {A} (l : list A) (a : A) :
  firstn (List.length l) (l ++ [a]) ++ skipn (S (List.length l)) (l ++ [a])
  = l.
Proof.
  rewrite skipn_all2 by (rewrite length_app; simpl; lia).
  rewrite firstn_app, Nat.sub_diag, firstn_all. simpl.
  rewrite !app_nil_r. reflexivity.
Qed.

(** The response of the youngest outstanding request arrives. *)
Lemma arrive_last s l rq o :
  inflight s = l ++ [rq] ->
  step s (Arrive (List.length l) o) = fetchBooksSettle rq o (setInflight l s).
Proof.
  intros H. unfold step. rewrite H, nth_error_last, remove_last.
  reflexivity.
Qed.

Lemma searchRound_eq o s :
  blank (searchQuery s) = false -> isWellFormed (searchQuery s) = true ->
  searchRound o s
  = fetchBooksSettle
      (mkRequest (searchQuery s) (searchType s) 1 false (filters s)) o
      (setError None (setLoading true (setCurrentPage 1 s))).
Proof.
  intros H Hw. unfold searchRound, run. cbn [fold_left].
  change (step s Submit) with (handleSearch s).
  rewrite handleSearch_sent by assumption.
  erewrite arrive_last by reflexivity.
  destruct s; reflexivity.
Qed.

Lemma searchRound_json s docs :
  blank (searchQuery s) = false -> isWellFormed (searchQuery s) = true ->
  books (searchRound (Json docs) s) = batch docs
  /\ currentPage (searchRound (Json docs) s) = 1%Z
  /\ status (searchRound (Json docs) s) = Idle.
Proof.
  intros H Hw. rewrite searchRound_eq by assumption.
  destruct docs as [[|b l]|]; repeat split; reflexivity.
Qed.

Lemma loadMoreRound_eq o s :
  hasMoreResults s = true -> loading s = false ->
  blank (searchQuery s) = false -> isWellFormed (searchQuery s) = true ->
  loadMoreRound o s
  = fetchBooksSettle
      (mkRequest (searchQuery s) (searchType s) (currentPage s + 1) true
         (filters s)) o
      (setError None (setLoading true s)).
Proof.
  intros Hm Hl Hq Hw. unfold loadMoreRound, run. cbn [fold_left].
  change (step s LoadMore) with (handleLoadMore s).
  rewrite handleLoadMore_sent by assumption.
  erewrite arrive_last by reflexivity.
  destruct s; reflexivity.
Qed.

(** A click on "Load More" sends a request only from a state that shows
    more results, is not loading, and has a query that can be encoded. *)
Lemma issuedFetch_handleLoadMore s :
  issuedFetch s (handleLoadMore s) = true ->
  hasMoreResults s = true /\ loading s = false
  /\ blank (searchQuery s) = false /\ isWellFormed (searchQuery s) = true.
Proof.
  intros H.
  destruct (hasMoreResults s && negb (loading s)
            && negb (blank (searchQuery s))) eqn:E.
  - apply andb_true_iff in E. destruct E as [E Hq].
    apply andb_true_iff in E. destruct E as [Hm Hl].
    apply negb_true_iff in Hq, Hl.
    repeat (split; [assumption|]).
    destruct (isWellFormed (searchQuery s)) eqn:Hw; [reflexivity|].
    unfold handleLoadMore in H. rewrite Hm, Hl in H. cbn [andb negb] in H.
    rewrite fetchBooks_malformed in H by assumption.
    unfold issuedFetch in H. apply Nat.eqb_eq in H.
    destruct s; cbn in H. lia.
  - rewrite handleLoadMore_idle in H by exact E.
    unfold issuedFetch in H. apply Nat.eqb_eq in H. lia.
Qed.

End ControllerFacts.

Section FetchClaims.

(** C7. When the query text is empty or holds white space only, a search
    does nothing: the state, the outstanding requests included, is the
    one before, whether the guard that stops it is the handler's or the
    one of [fetchBooks]. *)
Theorem blank_search_is_noop (s : State)
  (Hblank : forallb is_white_space (searchQuery s) = true) :
  handleSearch s = s
  /\ step s Submit = s
  /\ (forall type page append,
        fetchBooks (searchQuery s) type page append s = s).
Proof.
  apply blank_true_iff in Hblank.
  split; [|split].
  - apply handleSearch_blank, Hblank.
  - apply handleSearch_blank, Hblank.
  - intros. apply fetchBooks_blank, Hblank.
Qed.

Lemma blank_search_is_noop_witness :
  let s := setSearchQuery [32; 9; 160]%N firstPageShown in
  forallb is_white_space (searchQuery s) = true
  /\ handleSearch s = s.
Proof.
  intros s.
  assert (H : forallb is_white_space (searchQuery s) = true) by reflexivity.
  split; [exact H|].
  exact (proj1 (blank_search_is_noop s H)).
Defined.

(** Every request asks for [limit=12], right after the page number. *)
Lemma apiUrl_limit (encodeURIComponent : jsstring -> jsstring)
  (rq : Request) :
  exists tail,
    apiUrl encodeURIComponent rq
    = str "https://openlibrary.org/search.json?" ++ searchParam (rq_type rq)
      ++ str "=" ++ encodeURIComponent (rq_query rq)
      ++ str "&page=" ++ of_Z (rq_page rq) ++ str "&limit=12" ++ tail.
Proof.
  unfold apiUrl.
  destruct (truthy_string (yearFrom (rq_filters rq)));
    destruct (truthy_string (yearTo (rq_filters rq)));
    destruct (truthy_string (language (rq_filters rq)));
    cbv zeta; repeat rewrite <- app_assoc;
    eexists; reflexivity.
Qed.

(** C5. When a response with a batch has been handled, [hasMoreResults]
    is true exactly when the batch holds 12 records; an empty batch, an
    absent [docs] and a short batch all give false. *)
Theorem hasMore_iff_full_page (rq : Request) (docs : option (list Book))
  (s : State) :
  hasMoreResults (fetchBooksSettle rq (Json docs) s)
  = Nat.eqb (List.length (batch docs)) pageSize
  /\ (hasMoreResults (fetchBooksSettle rq (Json docs) s) = true
      <-> List.length (batch docs) = 12%nat).
Proof.
  assert (H : hasMoreResults (fetchBooksSettle rq (Json docs) s)
              = Nat.eqb (List.length (batch docs)) pageSize).
  { unfold fetchBooksSettle. destruct docs as [[|b l]|];
      cbn [thrown batch]; destruct (rq_append rq); reflexivity. }
  split; [exact H|].
  rewrite H. apply Nat.eqb_eq.
Qed.

(** C4. Whatever makes the fetch fail (the transport, a status that is
    not a success, a body that does not parse), the controller ends in
    the error status with the message "Failed to fetch books: " followed
    by the cause; a failed search leaves no results, a failed "Load More"
    leaves the results it found.  The query is one the request was sent
    for: not blank, and accepted by [encodeURIComponent]. *)
Theorem failed_fetch_reports_error (s : State) (o : Outcome)
  (message : jsstring)
  (Hfail : thrown o = Some message)
  (Hquery : blank (searchQuery s) = false)
  (Hencodes : isWellFormed (searchQuery s) = true) :
  (forall rq,
      let s' := fetchBooksSettle rq o s in
      status s' = Failed
      /\ error s' = Some (str "Failed to fetch books: " ++ message)
      /\ books s' = if rq_append rq then books s else [])
  /\ (let s' := searchRound o s in
      status s' = Failed
      /\ error s' = Some (str "Failed to fetch books: " ++ message)
      /\ books s' = [])
  /\ (hasMoreResults s = true -> loading s = false ->
      let s' := loadMoreRound o s in
      status s' = Failed
      /\ error s' = Some (str "Failed to fetch books: " ++ message)
      /\ books s' = books s).
Proof.
  assert (Hsettle : forall rq s0,
             let s' := fetchBooksSettle rq o s0 in
             status s' = Failed
             /\ error s' = Some (str "Failed to fetch books: " ++ message)
             /\ books s' = if rq_append rq then books s0 else []).
  { intros rq s0. unfold fetchBooksSettle. rewrite Hfail.
    destruct (rq_append rq); cbn; auto. }
  split; [intros rq; apply Hsettle|]. split.
  - rewrite searchRound_eq by assumption. apply Hsettle.
  - intros Hm Hl. rewrite loadMoreRound_eq by assumption.
    destruct (Hsettle
                (mkRequest (searchQuery s) (searchType s)
                   (currentPage s + 1) true (filters s))
                (setError None (setLoading true s))) as [H1 [H2 H3]].
    repeat split; assumption.
Qed.

Lemma failed_fetch_reports_error_witness :
  thrown (NotOk 503) = Some (str "HTTP error! status: 503")
  /\ (blank (searchQuery firstPageShown) = false
      /\ isWellFormed (searchQuery firstPageShown) = true)
  /\ hasMoreResults firstPageShown = true
  /\ loading firstPageShown = false
  /\ books (searchRound (NotOk 503) firstPageShown) = []
  /\ books (loadMoreRound (NotOk 503) firstPageShown) = fullPage
  /\ error (loadMoreRound (NotOk 503) firstPageShown)
     = Some (str "Failed to fetch books: HTTP error! status: 503").
Proof.
  assert (Hf : thrown (NotOk 503) = Some (str "HTTP error! status: 503"))
    by reflexivity.
  assert (Hq : blank (searchQuery firstPageShown) = false) by reflexivity.
  assert (Hw : isWellFormed (searchQuery firstPageShown) = true)
    by reflexivity.
  assert (Hm : hasMoreResults firstPageShown = true) by reflexivity.
  assert (Hl : loading firstPageShown = false) by reflexivity.
  pose proof (failed_fetch_reports_error firstPageShown (NotOk 503)
                (str "HTTP error! status: 503") Hf Hq Hw)
    as [_ [Hsearch Hmore]].
  specialize (Hmore Hm Hl).
  split; [exact Hf|]. split; [split; [exact Hq|exact Hw]|].
  split; [exact Hm|]. split; [exact Hl|].
  split; [apply Hsearch|]. split; apply Hmore.
Defined.

(** C6, as the code has it. A successful search, one whose query is not
    blank and is accepted by [encodeURIComponent] so that its request is
    sent, replaces the results by the batch of page 1, also when that batch
    is empty, and leaves the page at 1 and the status idle; the results are
    as many as the batch holds, so at most 12 when the service keeps to the
    [limit=12] it was asked for. *)
Theorem search_replaces_results (s : State) (docs : option (list Book))
  (Hquery : blank (searchQuery s) = false)
  (Hencodes : isWellFormed (searchQuery s) = true) :
  let s' := searchRound (Json docs) s in
  books s' = batch docs
  /\ currentPage s' = 1%Z
  /\ status s' = Idle
  /\ List.length (books s') = List.length (batch docs)
  /\ (List.length (batch docs) <= pageSize ->
      List.length (books s') <= pageSize).
Proof.
  intros s'. subst s'.
  destruct (searchRound_json s docs Hquery Hencodes) as [Hb [Hp Hs]].
  rewrite Hb.
  split; [reflexivity|]. split; [exact Hp|]. split; [exact Hs|].
  split; [reflexivity|auto].
Qed.

Lemma search_replaces_results_witness :
  blank (searchQuery firstPageShown) = false
  /\ isWellFormed (searchQuery firstPageShown) = true
  /\ books (searchRound (Json (Some [])) firstPageShown) = []
  /\ currentPage (searchRound (Json (Some [])) firstPageShown) = 1%Z.
Proof.
  assert (Hq : blank (searchQuery firstPageShown) = false) by reflexivity.
  assert (Hw : isWellFormed (searchQuery firstPageShown) = true)
    by reflexivity.
  pose proof (search_replaces_results firstPageShown (Some []) Hq Hw)
    as [Hb [Hp _]].
  split; [exact Hq|]. split; [exact Hw|]. split; [exact Hb|exact Hp].
Defined.

(** C6, as stated, fails when the service returns more than it was asked
    for: a successful search whose batch holds 13 records leaves 13
    results. *)
Lemma search_results_exceed_page_size :
  blank (searchQuery typed) = false
  /\ List.length (books (searchRound (Json (Some thirteen)) typed)) = 13%nat
  /\ ~ List.length (books (searchRound (Json (Some thirteen)) typed))
       <= pageSize.
Proof.
  split; [reflexivity|]. split; [reflexivity|].
  vm_compute. lia.
Qed.

End FetchClaims.

Section PaginationClaims.

Lemma loadMoreRound_json s docs :
  hasMoreResults s = true -> loading s = false ->
  blank (searchQuery s) = false -> isWellFormed (searchQuery s) = true ->
  books (loadMoreRound (Json docs) s) = books s ++ batch docs
  /\ currentPage (loadMoreRound (Json docs) s)
     = (currentPage s + if nonEmptyBatch docs then 1 else 0)%Z.
Proof.
  intros Hm Hl Hq Hw. rewrite loadMoreRound_eq by assumption.
  destruct docs as [[|b l]|]; cbn.
  - rewrite app_nil_r. split; [reflexivity|lia].
  - split; reflexivity.
  - rewrite app_nil_r. split; [reflexivity|lia].
Qed.

Lemma loadMoreRounds_spec batches :
  forall s s',
    loadMoreRounds s batches = Some s' ->
    books s' = books s ++ List.concat (map batch batches)
    /\ currentPage s'
       = (currentPage s
          + Z.of_nat (List.length (filter nonEmptyBatch batches)))%Z.
Proof.
  induction batches as [|docs rest IH]; intros s s' H.
  - simpl in H. inversion H; subst. simpl.
    rewrite app_nil_r. split; [reflexivity|lia].
  - cbn [loadMoreRounds] in H.
    destruct (issuedFetch s (handleLoadMore s)) eqn:E; [|discriminate].
    apply issuedFetch_handleLoadMore in E. destruct E as [Hm [Hl [Hq Hw]]].
    destruct (loadMoreRound_json s docs Hm Hl Hq Hw) as [Hb Hp].
    destruct (IH _ _ H) as [Hb' Hp'].
    rewrite Hb', Hb, Hp', Hp. cbn [map List.concat filter].
    rewrite <- app_assoc. split; [reflexivity|].
    destruct (nonEmptyBatch docs); cbn [List.length]; lia.
Qed.

Lemma filter_all {A} (f : A -> bool) (l : list A) :
  forallb f l = true -> filter f l = l.
Proof.
  induction l as [|a l IH]; simpl; [reflexivity|].
  intros H. apply andb_true_iff in H. destruct H as [Ha Hl].
  rewrite Ha, IH by exact Hl. reflexivity.
Qed.

(** C3, as the code has it. After a successful search (its query not
    blank and accepted by [encodeURIComponent]) and N successful
    "Load More" rounds the results are the batch of page 1 followed by the
    batches of the rounds, in that order, so as many as the batches hold
    together; the page is 1 plus the number of rounds whose batch was not
    empty, hence N + 1 when no batch was empty. *)
Theorem loadMore_appends_in_fetch_order (s s' : State)
  (docs0 : option (list Book)) (batches : list (option (list Book)))
  (Hquery : blank (searchQuery s) = false)
  (Hencodes : isWellFormed (searchQuery s) = true)
  (Hrounds : loadMoreRounds (searchRound (Json docs0) s) batches = Some s') :
  books s' = batch docs0 ++ List.concat (map batch batches)
  /\ List.length (books s')
     = List.length (batch docs0)
       + list_sum (map (fun docs => List.length (batch docs)) batches)
  /\ currentPage s'
     = (1 + Z.of_nat (List.length (filter nonEmptyBatch batches)))%Z
  /\ (forallb nonEmptyBatch batches = true ->
      currentPage s' = (Z.of_nat (List.length batches) + 1)%Z).
Proof.
  destruct (searchRound_json s docs0 Hquery Hencodes) as [Hb0 [Hp0 _]].
  destruct (loadMoreRounds_spec _ _ _ Hrounds) as [Hb Hp].
  rewrite Hb0 in Hb. rewrite Hp0 in Hp.
  split; [exact Hb|]. split; [|split].
  - rewrite Hb, length_app, length_concat, map_map. reflexivity.
  - exact Hp.
  - intros Hall. rewrite Hp, (filter_all _ _ Hall). lia.
Qed.

Lemma loadMore_appends_in_fetch_order_witness :
  let s' := loadMoreRound (Json (Some [emma]))
              (loadMoreRound (Json (Some fullPage))
                 (searchRound (Json (Some fullPage)) typed)) in
  blank (searchQuery typed) = false
  /\ isWellFormed (searchQuery typed) = true
  /\ loadMoreRounds (searchRound (Json (Some fullPage)) typed)
       [Some fullPage; Some [emma]] = Some s'
  /\ books s' = fullPage ++ fullPage ++ [emma]
  /\ currentPage s' = 3%Z.
Proof.
  intros s'.
  assert (Hq : blank (searchQuery typed) = false) by reflexivity.
  assert (Hw : isWellFormed (searchQuery typed) = true) by reflexivity.
  assert (Hr : loadMoreRounds (searchRound (Json (Some fullPage)) typed)
                 [Some fullPage; Some [emma]] = Some s')
    by (subst s'; vm_compute; reflexivity).
  pose proof (loadMore_appends_in_fetch_order
                typed s' (Some fullPage) [Some fullPage; Some [emma]]
                Hq Hw Hr)
    as [Hb [_ [_ Hp]]].
  split; [exact Hq|]. split; [exact Hw|]. split; [exact Hr|]. split.
  - rewrite Hb. reflexivity.
  - rewrite Hp by reflexivity. reflexivity.
Defined.

(** C3, as stated, fails when the batch of the last round is empty: after
    a search that fills page 1 and one "Load More" round whose batch is
    empty, the page is still 1, not 2. *)
Lemma page_stays_after_empty_batch :
  blank (searchQuery typed) = false
  /\ option_map currentPage
       (loadMoreRounds (searchRound (Json (Some fullPage)) typed) [Some []])
     = Some 1%Z
  /\ option_map currentPage
       (loadMoreRounds (searchRound (Json (Some fullPage)) typed) [Some []])
     <> Some (Z.of_nat (List.length [Some (@nil Book)]) + 1)%Z.
Proof.
  split; [reflexivity|]. split; [reflexivity|].
  vm_compute. discriminate.
Qed.

End PaginationClaims.

Section OverlapClaims.

Lemma handleQuickSearch_sent type q s :
  blank q = false -> isWellFormed q = true ->
  handleQuickSearch type q s
  = setInflight (inflight s ++ [mkRequest q type 1 false (filters s)])
      (setError None
         (setLoading true
            (setCurrentPage 1 (setSearchQuery q (setSearchType type s))))).
Proof.
  intros H Hw. unfold handleQuickSearch. cbv zeta.
  rewrite fetchBooks_sent by assumption. reflexivity.
Qed.

(** A response with records, for a request made by "Load More", is
    appended and moves the page to the one requested, whatever the state
    has become in the meantime. *)
Lemma arrive_appends (s : State) (i : nat) (rq : Request)
  (b : Book) (l : list Book) :
  nth_error (inflight s) i = Some rq -> rq_append rq = true ->
  books (step s (Arrive i (Json (Some (b :: l))))) = books s ++ b :: l
  /\ currentPage (step s (Arrive i (Json (Some (b :: l))))) = rq_page rq.
Proof.
  intros Hi Ha. unfold step. rewrite Hi.
  unfold fetchBooksSettle. cbn [thrown]. rewrite Ha.
  destruct s; split; reflexivity.
Qed.

(** C2, as the code has it. No response is ever discarded.  Take a state
    with nothing outstanding and nothing loading that offers more results,
    and queries that are not blank and are accepted by
    [encodeURIComponent].  "Load More" is clicked, a quick search is started
    while that request is outstanding, the response of the search arrives
    and then the response of the older request.  Both requests were
    outstanding together, and the results end as the batch of the search
    followed by the batch of the older request; [hasMoreResults] is the one
    of the older batch; the page is the one the older request asked for when
    its batch is not empty, and 1 otherwise. *)
Theorem stale_response_is_merged (s : State) (type : SearchType)
  (q : jsstring) (fresh stale : option (list Book))
  (Hnone : inflight s = [])
  (Hidle : loading s = false)
  (Hmore : hasMoreResults s = true)
  (Hquery : blank (searchQuery s) = false)
  (Hencodes : isWellFormed (searchQuery s) = true)
  (Hq : blank q = false)
  (Hqencodes : isWellFormed q = true) :
  let s' := run s [LoadMore; QuickSearch type q;
                   Arrive 1 (Json fresh); Arrive 0 (Json stale)] in
  inflight (run s [LoadMore; QuickSearch type q])
  = [mkRequest (searchQuery s) (searchType s) (currentPage s + 1) true
       (filters s);
     mkRequest q type 1 false (filters s)]
  /\ books s' = batch fresh ++ batch stale
  /\ currentPage s'
     = (if nonEmptyBatch stale then currentPage s + 1 else 1)%Z
  /\ hasMoreResults s' = Nat.eqb (List.length (batch stale)) 12
  /\ inflight s' = [].
Proof.
  intros s'. subst s'. unfold run. cbn [fold_left].
  change (step s LoadMore) with (handleLoadMore s).
  rewrite handleLoadMore_sent by assumption. rewrite Hnone.
  match goal with
  | |- context [step ?x (QuickSearch type q)] =>
      change (step x (QuickSearch type q))
        with (handleQuickSearch type q x)
  end.
  rewrite handleQuickSearch_sent by assumption.
  split; [destruct s; reflexivity|].
  destruct s; destruct fresh as [[|f fs]|]; destruct stale as [[|t ts]|];
    cbn; rewrite ?app_nil_r; auto.
Qed.

Lemma stale_response_is_merged_witness :
  inflight firstPageShown = []
  /\ loading firstPageShown = false
  /\ hasMoreResults firstPageShown = true
  /\ (blank (searchQuery firstPageShown) = false
      /\ isWellFormed (searchQuery firstPageShown) = true)
  /\ (blank (str "1984") = false /\ isWellFormed (str "1984") = true)
  /\ books (run firstPageShown
              [LoadMore; QuickSearch TitleSearch (str "1984");
               Arrive 1 (Json (Some [emma]));
               Arrive 0 (Json (Some [ulysses]))])
     = [emma; ulysses]
  /\ currentPage (run firstPageShown
                    [LoadMore; QuickSearch TitleSearch (str "1984");
                     Arrive 1 (Json (Some [emma]));
                     Arrive 0 (Json (Some []))])
     = 1%Z.
Proof.
  assert (H1 : inflight firstPageShown = []) by reflexivity.
  assert (H2 : loading firstPageShown = false) by reflexivity.
  assert (H3 : hasMoreResults firstPageShown = true) by reflexivity.
  assert (H4 : blank (searchQuery firstPageShown) = false) by reflexivity.
  assert (H5 : isWellFormed (searchQuery firstPageShown) = true)
    by reflexivity.
  assert (H6 : blank (str "1984") = false) by reflexivity.
  assert (H7 : isWellFormed (str "1984") = true) by reflexivity.
  pose proof (stale_response_is_merged firstPageShown TitleSearch
                (str "1984") (Some [emma]) (Some [ulysses])
                H1 H2 H3 H4 H5 H6 H7)
    as [_ [Hb _]].
  pose proof (stale_response_is_merged firstPageShown TitleSearch
                (str "1984") (Some [emma]) (Some [])
                H1 H2 H3 H4 H5 H6 H7)
    as [_ [_ [Hp _]]].
  split; [exact H1|]. split; [exact H2|]. split; [exact H3|].
  split; [split; [exact H4|exact H5]|].
  split; [split; [exact H6|exact H7]|].
  split; [exact Hb|exact Hp].
Defined.

(** C2, as stated, fails: a suggestion is clicked while the request for
    page 2 is outstanding, its response arrives and replaces the results,
    and the response for page 2 that arrives after it is appended to them
    and sets the page to 2. *)
Lemma stale_response_not_discarded :
  books (run firstPageShown
           [LoadMore; QuickSearch TitleSearch (str "1984");
            Arrive 1 (Json (Some [emma]))])
  = [emma]
  /\ books (run firstPageShown overtaken) = [emma; ulysses]
  /\ currentPage (run firstPageShown overtaken) = 2%Z
  /\ books (run firstPageShown overtaken) <> [emma].
Proof.
  split; [reflexivity|]. split; [reflexivity|]. split; [reflexivity|].
  vm_compute. discriminate.
Qed.

End OverlapClaims.

Section GuardClaims.

Lemma handleLoadMore_loading s : loading s = true -> handleLoadMore s = s.
Proof.
  intros H. unfold handleLoadMore. rewrite H, andb_false_r. reflexivity.
Qed.

Lemma fetchBooks_matches q type page append s :
  loading s = false -> inflight s = [] ->
  inflightMatchesLoading (fetchBooks q type page append s).
Proof.
  intros Hl Hi. unfold fetchBooks, inflightMatchesLoading.
  destruct (blank q).
  - rewrite Hl, Hi. reflexivity.
  - destruct (isWellFormed q).
    + cbn. rewrite Hi. reflexivity.
    + destruct append; cbn; rewrite Hi; reflexivity.
Qed.

Lemma idle_nothing_inflight s :
  inflightMatchesLoading s -> loading s = false -> inflight s = [].
Proof.
  unfold inflightMatchesLoading. intros H Hl. rewrite Hl in H.
  destruct (inflight s); [reflexivity|discriminate].
Qed.

Lemma step_matches s e :
  inflightMatchesLoading s ->
  match e with
  | Submit | QuickSearch _ _ => loading s = false
  | _ => True
  end ->
  inflightMatchesLoading (step s e).
Proof.
  intros Inv Hg.
  destruct e as [text| | |v|type q|v|i o]; cbn [step].
  - exact Inv.
  - unfold handleSearch.
    destruct (truthy_string (trim (searchQuery s))); [|exact Inv].
    apply fetchBooks_matches; [exact Hg|].
    apply (idle_nothing_inflight s Inv Hg).
  - unfold handleLoadMore.
    destruct (hasMoreResults s && negb (loading s)) eqn:E; [|exact Inv].
    apply andb_true_iff in E. destruct E as [_ E].
    apply negb_true_iff in E.
    apply fetchBooks_matches; [exact E|].
    apply (idle_nothing_inflight s Inv E).
  - exact Inv.
  - unfold handleQuickSearch.
    apply fetchBooks_matches; [exact Hg|].
    apply (idle_nothing_inflight s Inv Hg).
  - exact Inv.
  - destruct (nth_error (inflight s) i) as [rq|] eqn:Hi; [|exact Inv].
    unfold inflightMatchesLoading in *.
    rewrite fetchBooksSettle_loading, fetchBooksSettle_inflight.
    assert (Hlt : i < List.length (inflight s)).
    { apply nth_error_Some. congruence. }
    destruct (loading s); [|lia].
    destruct (inflight s) as [|r [|r' rest]]; simpl in *; try lia.
    assert (i = 0) by lia. subst i. reflexivity.
Qed.

Lemma run_matches es :
  forall s,
    inflightMatchesLoading s -> searchesOnlyWhenIdle s es = true ->
    inflightMatchesLoading (run s es).
Proof.
  induction es as [|e es IH]; intros s Inv Hg; [exact Inv|].
  cbn [searchesOnlyWhenIdle] in Hg.
  apply andb_true_iff in Hg. destruct Hg as [He Hes].
  unfold run. cbn [fold_left]. apply IH; [|exact Hes].
  apply step_matches; [exact Inv|].
  destruct e; try exact I; apply negb_true_iff, He.
Qed.

Lemma searchesOnlyWhenIdle_prefix es1 es2 :
  forall s,
    searchesOnlyWhenIdle s (es1 ++ es2) = true ->
    searchesOnlyWhenIdle s es1 = true.
Proof.
  induction es1 as [|e es1 IH]; intros s H; [reflexivity|].
  cbn [app searchesOnlyWhenIdle] in *.
  apply andb_true_iff in H. destruct H as [He Hes].
  rewrite He. simpl. apply IH, Hes.
Qed.

(** What the view lets through never submits the form while loading. *)
Lemma viewDelivers_guard es :
  forall s,
    viewDelivers s es = true -> suggestionsOnlyWhenIdle s es = true ->
    searchesOnlyWhenIdle s es = true.
Proof.
  induction es as [|e es IH]; intros s Hv Hs; [reflexivity|].
  cbn [viewDelivers suggestionsOnlyWhenIdle searchesOnlyWhenIdle] in *.
  apply andb_true_iff in Hv. destruct Hv as [Ha Hv].
  apply andb_true_iff in Hs. destruct Hs as [Hq Hs].
  rewrite (IH _ Hv Hs), andb_true_r.
  destruct e; try reflexivity; [|exact Hq].
  cbn [viewAllows] in Ha. unfold submitDisabled in Ha.
  destruct (loading s); [discriminate Ha|reflexivity].
Qed.

(** C1. The claim fails on the code at this input.  The query "dune" is
    typed and submitted; while its request is loading, the suggestion
    "1984 by Orwell" is clicked.  The view lets every one of these events
    happen, the click is not a no-op, and two requests are outstanding
    together. *)
Theorem suggestion_while_loading_sends_request :
  viewDelivers initialState suggestionWhileLoading = true
  /\ isSuggestion TitleSearch (str "1984") = true
  /\ status (run initialState [Type_ (str "dune"); Submit]) = Loading
  /\ List.length (inflight (run initialState [Type_ (str "dune"); Submit]))
     = 1%nat
  /\ handleQuickSearch TitleSearch (str "1984")
       (run initialState [Type_ (str "dune"); Submit])
     <> run initialState [Type_ (str "dune"); Submit]
  /\ inflight (run initialState suggestionWhileLoading)
     = [mkRequest (str "dune") TitleSearch 1 false noFilters;
        mkRequest (str "1984") TitleSearch 1 false noFilters].
Proof.
  split; [reflexivity|]. split; [reflexivity|]. split; [reflexivity|].
  split; [reflexivity|]. split; [|reflexivity].
  intros H. apply (f_equal (fun s => List.length (inflight s))) in H.
  vm_compute in H. discriminate H.
Qed.

End GuardClaims.

(** * Further properties of the stores *)

Section StoreFacts.

Lemma contains_single (b : Book) (id : value) :
  contains [b] id = strict_eq (bookId b) id.
Proof. unfold contains. simpl. apply orb_false_r. Qed.

Lemma filter_split_length {A} (f : A -> bool) (l : list A) :
  List.length (filter f l) + List.length (filter (fun x => negb (f x)) l)
  = List.length l.
Proof.
  induction l as [|a l IH]; simpl; [reflexivity|].
  destruct (f a); simpl; lia.
Qed.

Lemma dropped_length (l : list Book) (id : value) :
  NoDup (map bookId l) ->
  List.length (filter (fun b => negb (hasId id b)) l)
  = List.length l - (if contains l id then 1 else 0).
Proof.
  intros Hnd. pose proof (filter_split_length (hasId id) l) as Hs.
  destruct (contains l id) eqn:E.
  - rewrite (NoDup_one_entry l id Hnd E) in Hs. lia.
  - rewrite drop_absent by exact E. lia.
Qed.

Lemma dropped_middle (l1 l2 : list Book) (b : Book) :
  NoDup (map bookId (l1 ++ b :: l2)) ->
  filter (fun x => negb (hasId (bookId b) x)) (l1 ++ b :: l2) = l1 ++ l2.
Proof.
  intros Hnd. rewrite map_app in Hnd. simpl in Hnd.
  apply NoDup_remove in Hnd. destruct Hnd as [_ Hnotin].
  rewrite <- map_app in Hnotin. apply contains_false_notin in Hnotin.
  rewrite contains_app in Hnotin. apply orb_false_iff in Hnotin.
  destruct Hnotin as [H1 H2].
  rewrite filter_app. simpl. rewrite hasId_own. simpl.
  rewrite (drop_absent l1 _ H1), (drop_absent l2 _ H2). reflexivity.
Qed.

End StoreFacts.

Section StoreExtras.

(** X1. A toggle flips the membership of the identity of the record it is
    given and of no other identity; the card of that record shows the
    opposite bookmark state afterwards. *)
Theorem toggleBookmark_flips_membership (book : Book) (prev : list Book) :
  (forall id,
      contains (toggleBookmark book prev) id
      = if strict_eq (bookId book) id then negb (contains prev id)
        else contains prev id)
  /\ isBookmarked book (toggleBookmark book prev)
     = negb (isBookmarked book prev).
Proof.
  assert (H : forall id,
             contains (toggleBookmark book prev) id
             = if strict_eq (bookId book) id then negb (contains prev id)
               else contains prev id).
  { intros id. unfold toggleBookmark.
    destruct (existsb (hasId (bookId book)) prev) eqn:E;
      destruct (strict_eq (bookId book) id) eqn:Hid.
    - apply strict_eq_eq in Hid. subst id.
      rewrite contains_dropped. unfold contains. rewrite E. reflexivity.
    - apply strict_eq_neq in Hid.
      apply contains_other_dropped. congruence.
    - rewrite contains_app, contains_single, Hid.
      apply strict_eq_eq in Hid. subst id.
      unfold contains. rewrite E. reflexivity.
    - rewrite contains_app, contains_single, Hid. apply orb_false_r. }
  split; [exact H|].
  unfold isBookmarked. fold (contains (toggleBookmark book prev) (bookId book)).
  rewrite H, strict_eq_refl. reflexivity.
Qed.

(** X2. On a bookmarks store built by toggles from the empty one, a toggle
    changes the number of bookmarks by exactly one: down when the record is
    bookmarked, up when it is not. *)
Theorem toggleBookmark_counts_one (ops : list BookmarkOp) (book : Book) :
  List.length (toggleBookmark book (bookmarksAfter ops))
  = if isBookmarked book (bookmarksAfter ops)
    then List.length (bookmarksAfter ops) - 1
    else List.length (bookmarksAfter ops) + 1.
Proof.
  unfold toggleBookmark, isBookmarked.
  destruct (existsb (hasId (bookId book)) (bookmarksAfter ops)) eqn:E.
  - rewrite dropped_length by apply bookmarksAfter_NoDup.
    unfold contains. rewrite E. reflexivity.
  - rewrite length_app. reflexivity.
Qed.

(** X3. Removing an identity from the reading list leaves no entry of that
    identity, changes the membership of no other identity, and removing it
    a second time changes nothing. *)
Theorem removeFromReadingList_membership (id : value) (prev : list Book) :
  (forall id',
      contains (removeFromReadingList id prev) id'
      = if strict_eq id id' then false else contains prev id')
  /\ removeFromReadingList id (removeFromReadingList id prev)
     = removeFromReadingList id prev.
Proof.
  split.
  - intros id'. unfold removeFromReadingList.
    destruct (strict_eq id id') eqn:Hid.
    + apply strict_eq_eq in Hid. subst id'. apply contains_dropped.
    + apply strict_eq_neq in Hid. apply contains_other_dropped. congruence.
  - unfold removeFromReadingList. apply drop_absent, contains_dropped.
Qed.

(** X4. In a reading list built by the application, removing the identity
    of an entry takes out that entry alone and keeps the others in their
    order. *)
Theorem removeFromReadingList_exact (ops : list ReadingListOp)
  (l1 l2 : list Book) (b : Book)
  (Hlist : readingListAfter ops = l1 ++ b :: l2) :
  removeFromReadingList (bookId b) (readingListAfter ops) = l1 ++ l2.
Proof.
  unfold removeFromReadingList. rewrite Hlist.
  apply dropped_middle. rewrite <- Hlist. apply readingListAfter_NoDup.
Qed.

Lemma removeFromReadingList_exact_witness :
  let ops := [Add someTime dune; Add someTime emma; Add someTime ulysses] in
  readingListAfter ops
  = [withAddedDate someTime dune]
    ++ withAddedDate someTime emma :: [withAddedDate someTime ulysses]
  /\ removeFromReadingList (bookId (withAddedDate someTime emma))
       (readingListAfter ops)
     = [withAddedDate someTime dune] ++ [withAddedDate someTime ulysses].
Proof.
  intros ops.
  assert (H : readingListAfter ops
              = [withAddedDate someTime dune]
                ++ withAddedDate someTime emma
                   :: [withAddedDate someTime ulysses]) by reflexivity.
  split; [exact H|].
  exact (removeFromReadingList_exact ops
           [withAddedDate someTime dune] [withAddedDate someTime ulysses]
           (withAddedDate someTime emma) H).
Defined.

(** X5. Adding a record whose identity is not in the reading list and then
    removing that identity gives the list back as it was. *)
Theorem add_then_remove_restores (now : jsstring) (book : Book)
  (prev : list Book)
  (Habsent : contains prev (bookId book) = false) :
  removeFromReadingList (bookId book) (addToReadingList now book prev) = prev.
Proof.
  unfold addToReadingList, removeFromReadingList.
  unfold contains in Habsent. rewrite Habsent. cbn [negb].
  rewrite filter_app. cbn [filter].
  change (hasId (bookId book) (withAddedDate now book))
    with (strict_eq (bookId book) (bookId book)).
  rewrite strict_eq_refl. cbn [negb]. rewrite app_nil_r.
  apply drop_absent, Habsent.
Qed.

Lemma add_then_remove_restores_witness :
  contains [dune; emma] (bookId ulysses) = false
  /\ removeFromReadingList (bookId ulysses)
       (addToReadingList someTime ulysses [dune; emma])
     = [dune; emma].
Proof.
  assert (H : contains [dune; emma] (bookId ulysses) = false) by reflexivity.
  split; [exact H|].
  exact (add_then_remove_restores someTime ulysses [dune; emma] H).
Defined.

(** X6. On a reading list built by the application, adding makes the list
    one longer exactly when the identity is new, and removing makes it one
    shorter exactly when the identity is present. *)
Theorem readingList_counts_one (ops : list ReadingListOp) (now : jsstring)
  (book : Book) (id : value) :
  List.length (addToReadingList now book (readingListAfter ops))
  = List.length (readingListAfter ops)
    + (if isInReadingList book (readingListAfter ops) then 0 else 1)
  /\ List.length (removeFromReadingList id (readingListAfter ops))
     = List.length (readingListAfter ops)
       - (if contains (readingListAfter ops) id then 1 else 0).
Proof.
  split.
  - unfold addToReadingList, isInReadingList.
    destruct (existsb (hasId (bookId book)) (readingListAfter ops)); cbn [negb].
    + lia.
    + rewrite length_app. reflexivity.
  - apply dropped_length, readingListAfter_NoDup.
Qed.

Lemma fold_left_app_one {A B} (f : A -> B -> A) (l : list B) (b : B) (a : A) :
  fold_left f (l ++ [b]) a = f (fold_left f l a) b.
Proof. rewrite fold_left_app. reflexivity. Qed.

(** X7. Whatever is in a store was put there: an entry of the bookmarks is
    a record some toggle was given, and an entry of the reading list is the
    dated copy of a record some add was given, with that record's fields. *)
Theorem store_entries_were_added :
  (forall ops b, In b (bookmarksAfter ops) -> In (Toggle b) ops)
  /\ (forall ops b,
         In b (readingListAfter ops) ->
         exists now book,
           In (Add now book) ops /\ b = withAddedDate now book).
Proof.
  split.
  - intros ops. induction ops as [|op ops IH] using rev_ind; intros b Hb.
    + destruct Hb.
    + unfold bookmarksAfter in *. rewrite fold_left_app_one in Hb.
      destruct op as [book]. cbn [applyBookmarkOp] in Hb.
      unfold toggleBookmark in Hb.
      destruct (existsb (hasId (bookId book)) (fold_left applyBookmarkOp ops []));
        apply in_or_app.
      * apply filter_In in Hb. left. apply IH, Hb.
      * apply in_app_or in Hb. destruct Hb as [Hb|[Hb|[]]].
        -- left. apply IH, Hb.
        -- subst. right. left. reflexivity.
  - intros ops. induction ops as [|op ops IH] using rev_ind; intros b Hb.
    + destruct Hb.
    + unfold readingListAfter in *. rewrite fold_left_app_one in Hb.
      assert (Hold : In b (fold_left applyReadingListOp ops []) ->
                     exists now book,
                       In (Add now book) (ops ++ [op])
                       /\ b = withAddedDate now book).
      { intros H. destruct (IH b H) as [now [book [Hin Heq]]].
        exists now, book. split; [apply in_or_app; left; exact Hin|exact Heq]. }
      destruct op as [now book|id]; cbn [applyReadingListOp] in Hb.
      * unfold addToReadingList in Hb.
        destruct (existsb (hasId (bookId book))
                    (fold_left applyReadingListOp ops [])); cbn [negb] in Hb.
        -- apply Hold, Hb.
        -- apply in_app_or in Hb. destruct Hb as [Hb|[Hb|[]]].
           ++ apply Hold, Hb.
           ++ exists now, book. split; [|symmetry; exact Hb].
              apply in_or_app. right. left. reflexivity.
      * apply filter_In in Hb. apply Hold, Hb.
Qed.

Lemma store_entries_were_added_witness :
  In (withAddedDate someTime emma)
     (readingListAfter [Add someTime dune; Add someTime emma])
  /\ exists now book,
       In (Add now book) [Add someTime dune; Add someTime emma]
       /\ withAddedDate someTime emma = withAddedDate now book.
Proof.
  assert (H : In (withAddedDate someTime emma)
                 (readingListAfter [Add someTime dune; Add someTime emma]))
    by (right; left; reflexivity).
  split; [exact H|].
  exact (proj2 store_entries_were_added
           [Add someTime dune; Add someTime emma]
           (withAddedDate someTime emma) H).
Defined.

End StoreExtras.

(** * Further properties of the request *)

Section PrintingFacts.

Lemma str_inj (a b : string) : str a = str b -> a = b.
Proof.
  unfold str. intros H.
  rewrite <- (string_of_list_ascii_of_string a),
          <- (string_of_list_ascii_of_string b).
  f_equal. revert H.
  generalize (list_ascii_of_string a) (list_ascii_of_string b).
  induction l as [|x l IH]; intros [|y l'] H; simpl in H;
    try discriminate; [reflexivity|].
  inversion H as [[Hx Hl]].
  rewrite <- (ascii_N_embedding x), <- (ascii_N_embedding y), Hx.
  f_equal. apply IH, Hl.
Qed.

Lemma to_int_not_nil (z : Z) :
  Z.to_int z <> Decimal.Pos Decimal.Nil /\ Z.to_int z <> Decimal.Neg Decimal.Nil.
Proof.
  split; intros H; pose proof (f_equal Z.of_int H) as Hz;
    rewrite DecimalZ.of_to in Hz; simpl in Hz; subst z; discriminate.
Qed.

(** Printing an integer loses nothing. *)
Lemma of_Z_inj (a b : Z) : of_Z a = of_Z b -> a = b.
Proof.
  unfold of_Z. intros H. apply str_inj in H.
  apply DecimalZ.to_int_inj.
  destruct (to_int_not_nil a) as [Ha1 Ha2].
  destruct (to_int_not_nil b) as [Hb1 Hb2].
  pose proof (NilZero.isi (Z.to_int a) Ha1 Ha2) as Ia.
  pose proof (NilZero.isi (Z.to_int b) Hb1 Hb2) as Ib.
  rewrite H in Ia. congruence.
Qed.

End PrintingFacts.

Section UrlFacts.

Lemma apiUrl_split (encodeURIComponent : jsstring -> jsstring)
  (rq : Request) :
  apiUrl encodeURIComponent rq
  = (str "https://openlibrary.org/search.json?" ++ searchParam (rq_type rq)
     ++ str "=" ++ encodeURIComponent (rq_query rq) ++ str "&page=")
    ++ of_Z (rq_page rq)
    ++ 38%N :: str "limit=12" ++ filterParams (rq_filters rq).
Proof.
  unfold apiUrl, filterParams.
  destruct (truthy_string (yearFrom (rq_filters rq)));
    destruct (truthy_string (yearTo (rq_filters rq)));
    destruct (truthy_string (language (rq_filters rq)));
    cbv zeta; repeat rewrite <- app_assoc; rewrite ?app_nil_r;
    reflexivity.
Qed.

Lemma digits_no_ampersand (d : Decimal.uint) :
  ~ In 38%N (str (NilEmpty.string_of_uint d)).
Proof.
  induction d; cbn; intros H;
    try (destruct H as [H|H]; [discriminate H|auto]); auto.
Qed.

Lemma of_Z_no_ampersand (z : Z) : ~ In 38%N (of_Z z).
Proof.
  unfold of_Z, NilZero.string_of_int, NilZero.string_of_uint.
  destruct (Z.to_int z) as [d|d]; destruct d;
    try apply digits_no_ampersand;
    cbn; intros H;
    repeat (destruct H as [H|H]; [discriminate H|]);
    try (exact H);
    try (revert H; apply digits_no_ampersand).
Qed.

Lemma app_sep_inj {A} (c : A) (l1 l2 r1 r2 : list A) :
  ~ In c l1 -> ~ In c l2 ->
  l1 ++ c :: r1 = l2 ++ c :: r2 -> l1 = l2 /\ r1 = r2.
Proof.
  revert l2. induction l1 as [|a l1 IH]; intros [|b l2] H1 H2 H; simpl in *.
  - inversion H. auto.
  - inversion H; subst. exfalso. apply H2. auto.
  - inversion H; subst. exfalso. apply H1. auto.
  - inversion H; subst.
    destruct (IH l2) as [E1 E2]; try tauto. subst. auto.
Qed.

End UrlFacts.

Section UrlExtras.

(** X10. The URL of a request names its search type: requests of different
    types never have the same URL, whatever their query, page and filters. *)
Theorem apiUrl_tells_search_type (encodeURIComponent : jsstring -> jsstring)
  (rq1 rq2 : Request)
  (Hurl : apiUrl encodeURIComponent rq1 = apiUrl encodeURIComponent rq2) :
  rq_type rq1 = rq_type rq2.
Proof.
  rewrite !apiUrl_split in Hurl. rewrite <- !app_assoc in Hurl.
  apply app_inv_head in Hurl.
  destruct (rq_type rq1), (rq_type rq2); try reflexivity;
    cbn in Hurl; discriminate Hurl.
Qed.

Lemma apiUrl_tells_search_type_witness :
  let rq1 := mkRequest (str "dune") AuthorSearch 1 false noFilters in
  let rq2 := mkRequest (str "dune") AuthorSearch 1 true
               (mkFilters [] [] [] (str "physics")) in
  apiUrl (fun q => q) rq1 = apiUrl (fun q => q) rq2
  /\ rq_type rq1 = rq_type rq2.
Proof.
  intros rq1 rq2.
  assert (H : apiUrl (fun q => q) rq1 = apiUrl (fun q => q) rq2)
    by reflexivity.
  split; [exact H|].
  exact (apiUrl_tells_search_type (fun q => q) rq1 rq2 H).
Defined.

(** X11. The URL of a request names its page: two requests of one type for
    one query have the same URL only when they ask for the same page, and
    then the filters add the same parameters. *)
Theorem apiUrl_tells_page (encodeURIComponent : jsstring -> jsstring)
  (rq1 rq2 : Request)
  (Htype : rq_type rq1 = rq_type rq2)
  (Hquery : rq_query rq1 = rq_query rq2)
  (Hurl : apiUrl encodeURIComponent rq1 = apiUrl encodeURIComponent rq2) :
  rq_page rq1 = rq_page rq2
  /\ filterParams (rq_filters rq1) = filterParams (rq_filters rq2).
Proof.
  rewrite !apiUrl_split, Htype, Hquery in Hurl.
  apply app_inv_head in Hurl.
  apply app_sep_inj in Hurl; try apply of_Z_no_ampersand.
  destruct Hurl as [Hp Hf]. split.
  - apply of_Z_inj, Hp.
  - apply app_inv_head in Hf. exact Hf.
Qed.

Lemma apiUrl_tells_page_witness :
  let rq1 := mkRequest (str "dune") TitleSearch 2 true noFilters in
  let rq2 := mkRequest (str "dune") TitleSearch 2 false
               (mkFilters [] [] [] (str "physics")) in
  rq_type rq1 = rq_type rq2
  /\ rq_query rq1 = rq_query rq2
  /\ apiUrl (fun q => q) rq1 = apiUrl (fun q => q) rq2
  /\ rq_page rq1 = rq_page rq2.
Proof.
  intros rq1 rq2.
  assert (Ht : rq_type rq1 = rq_type rq2) by reflexivity.
  assert (Hq : rq_query rq1 = rq_query rq2) by reflexivity.
  assert (Hu : apiUrl (fun q => q) rq1 = apiUrl (fun q => q) rq2)
    by reflexivity.
  split; [exact Ht|]. split; [exact Hq|]. split; [exact Hu|].
  exact (proj1 (apiUrl_tells_page (fun q => q) rq1 rq2 Ht Hq Hu)).
Defined.

(** X12. Filters reach the URL only when set, and the subject filter never
    does: with no filter set the URL ends in [limit=12]; setting or changing
    the subject filter, or the append flag, changes no URL; a year or language
    filter that is set adds its parameter after [limit=12]. *)
Theorem apiUrl_filters (encodeURIComponent : jsstring -> jsstring)
  (q : jsstring) (type : SearchType) (page : Z) (append append' : bool)
  (from to lang subj subj' : jsstring) :
  apiUrl encodeURIComponent (mkRequest q type page append
                               (mkFilters [] [] [] subj))
  = str "https://openlibrary.org/search.json?" ++ searchParam type
    ++ str "=" ++ encodeURIComponent q ++ str "&page=" ++ of_Z page
    ++ str "&limit=12"
  /\ apiUrl encodeURIComponent (mkRequest q type page append
                                  (mkFilters from to lang subj))
     = apiUrl encodeURIComponent (mkRequest q type page append'
                                    (mkFilters from to lang subj'))
  /\ (exists head,
         apiUrl encodeURIComponent
           (mkRequest q type page append (mkFilters from to lang subj))
         = head ++ str "&limit=12"
           ++ (if truthy_string from
               then str "&first_publish_year[from]=" ++ from else [])
           ++ (if truthy_string to
               then str "&first_publish_year[to]=" ++ to else [])
           ++ (if truthy_string lang then str "&language=" ++ lang else [])).
Proof.
  split; [|split].
  - unfold apiUrl. cbn. reflexivity.
  - reflexivity.
  - exists (str "https://openlibrary.org/search.json?" ++ searchParam type
            ++ str "=" ++ encodeURIComponent q ++ str "&page=" ++ of_Z page).
    rewrite apiUrl_split. unfold filterParams.
    cbn [rq_filters rq_type rq_query rq_page yearFrom yearTo language].
    repeat rewrite <- app_assoc. reflexivity.
Qed.

End UrlExtras.

(** * Further properties of the controller *)

Section RunFacts.

Lemma run_snoc (s : State) (es : list Event) (e : Event) :
  run s (es ++ [e]) = step (run s es) e.
Proof. unfold run. rewrite fold_left_app. reflexivity. Qed.

Lemma run_invariant (P : State -> Prop) :
  (forall s e, P s -> P (step s e)) ->
  forall es s, P s -> P (run s es).
Proof.
  intros Hstep es. induction es as [|e es IH]; intros s Hs; [exact Hs|].
  apply IH, Hstep, Hs.
Qed.

Lemma length_without (l : list Request) (i : nat) {rq : Request} :
  nth_error l i = Some rq ->
  S (List.length (firstn i l ++ skipn (S i) l)) = List.length l.
Proof.
  intros H.
  assert (Hlt : i < List.length l) by (apply nth_error_Some; congruence).
  rewrite length_app, length_firstn, length_skipn. lia.
Qed.

Lemma Forall_without {A} (P : A -> Prop) (l : list A) (i : nat) :
  Forall P l -> Forall P (firstn i l ++ skipn (S i) l).
Proof.
  intros H. rewrite Forall_forall in *. intros x Hx. apply H.
  apply in_app_or in Hx. destruct Hx as [Hx|Hx].
  - rewrite <- (firstn_skipn i l). apply in_or_app. left. exact Hx.
  - rewrite <- (firstn_skipn (S i) l). apply in_or_app. right. exact Hx.
Qed.

Lemma fetchBooks_pages q type page append s :
  (1 <= page)%Z -> pagesFromOne s ->
  pagesFromOne (fetchBooks q type page append s).
Proof.
  intros Hp [Hc Hf]. unfold fetchBooks.
  destruct (blank q); [split; assumption|].
  destruct (isWellFormed q).
  - split; [exact Hc|]. cbn. apply Forall_app. split; [exact Hf|].
    constructor; [exact Hp|constructor].
  - destruct append; split; assumption.
Qed.

Lemma fetchBooksSettle_page rq o s :
  currentPage (fetchBooksSettle rq o s) = currentPage s
  \/ currentPage (fetchBooksSettle rq o s) = rq_page rq.
Proof.
  unfold fetchBooksSettle.
  destruct o as [m|st|m|[[|b l]|]]; cbn; destruct (rq_append rq); auto.
Qed.

Lemma step_pages s e : pagesFromOne s -> pagesFromOne (step s e).
Proof.
  intros Inv. destruct e as [text| | |v|type q|v|i o]; cbn [step].
  - exact Inv.
  - unfold handleSearch.
    destruct (truthy_string (trim (searchQuery s))); [|exact Inv].
    apply fetchBooks_pages; [lia|]. destruct Inv as [_ Hf].
    split; [cbn; lia|exact Hf].
  - unfold handleLoadMore.
    destruct (hasMoreResults s && negb (loading s)); [|exact Inv].
    apply fetchBooks_pages; [|exact Inv]. destruct Inv as [Hc _]. lia.
  - destruct Inv as [_ Hf]. split; [cbn; lia|exact Hf].
  - unfold handleQuickSearch. apply fetchBooks_pages; [lia|].
    destruct Inv as [_ Hf]. split; [cbn; lia|exact Hf].
  - exact Inv.
  - destruct (nth_error (inflight s) i) as [rq|] eqn:Hi; [|exact Inv].
    destruct Inv as [Hc Hf].
    assert (Hrq : (1 <= rq_page rq)%Z).
    { apply nth_error_In in Hi. rewrite Forall_forall in Hf. apply Hf, Hi. }
    split.
    + destruct (fetchBooksSettle_page rq o
                  (setInflight
                     (firstn i (inflight s) ++ skipn (S i) (inflight s)) s))
        as [E|E]; rewrite E; [exact Hc|exact Hrq].
    + rewrite fetchBooksSettle_inflight. cbn. apply Forall_without, Hf.
Qed.

Lemma step_no_error_while_loading s e :
  loading s = false \/ error s = None ->
  loading (step s e) = false \/ error (step s e) = None.
Proof.
  intros Inv. destruct e as [text| | |v|type q|v|i o]; cbn [step].
  - exact Inv.
  - unfold handleSearch, fetchBooks.
    destruct (truthy_string (trim (searchQuery s))); [|exact Inv].
    cbn. destruct (blank (searchQuery s)); [exact Inv|].
    destruct (isWellFormed (searchQuery s)); [right|left]; reflexivity.
  - unfold handleLoadMore, fetchBooks.
    destruct (hasMoreResults s && negb (loading s)); [|exact Inv].
    destruct (blank (searchQuery s)); [exact Inv|].
    destruct (isWellFormed (searchQuery s)); [right|left]; reflexivity.
  - exact Inv.
  - unfold handleQuickSearch, fetchBooks. cbn.
    destruct (blank q); [exact Inv|].
    destruct (isWellFormed q); [right|left]; reflexivity.
  - exact Inv.
  - destruct (nth_error (inflight s) i) as [rq|]; [|exact Inv].
    left. apply fetchBooksSettle_loading.
Qed.

End RunFacts.

Section RunExtras.

(** X13. In every run from the initial state, guarded or not, the page
    shown is at least 1 and so is the page of every outstanding request. *)
Theorem pages_start_at_one (es : list Event) :
  (1 <= currentPage (run initialState es))%Z
  /\ Forall (fun rq => (1 <= rq_page rq)%Z) (inflight (run initialState es)).
Proof.
  apply (run_invariant pagesFromOne step_pages).
  split; [cbn; lia|constructor].
Qed.

(** X14. In every run from the initial state, guarded or not, the loading
    flag and an error message are never set together: sending a request
    clears the message, and a failure that sets one ends the loading. *)
Theorem no_error_while_loading (es : list Event) :
  loading (run initialState es) = false \/ error (run initialState es) = None.
Proof.
  apply (run_invariant
           (fun s => loading s = false \/ error s = None)
           step_no_error_while_loading).
  left. reflexivity.
Qed.

End RunExtras.

Section FullPageFacts.

Lemma fetchBooks_full q type page append s :
  inflight s = [] -> (append = true -> hasMoreResults s = true) ->
  fullPagesSoFar s -> fullPagesSoFar (fetchBooks q type page append s).
Proof.
  intros Hi Ha Inv. unfold fetchBooks.
  destruct (blank q); [exact Inv|].
  destruct (isWellFormed q).
  - unfold fullPagesSoFar in *. cbn. rewrite Hi. cbn. intros [H|H].
    + apply Inv. left. exact H.
    + apply Inv. left. apply Ha.
      inversion H as [x l Hx|x l Hx]; subst; [exact Hx|inversion Hx].
  - unfold fullPagesSoFar in *. destruct append; cbn; rewrite Hi.
    + intros [H|H]; [|inversion H]. apply Inv. left. exact H.
    + intros _. exists 0. reflexivity.
Qed.

Lemma only_request s i rq :
  inflightMatchesLoading s -> nth_error (inflight s) i = Some rq ->
  inflight s = [rq] /\ i = 0.
Proof.
  unfold inflightMatchesLoading. intros Inv Hi.
  assert (Hlt : i < List.length (inflight s)).
  { apply nth_error_Some. congruence. }
  destruct (loading s); [|lia].
  destruct (inflight s) as [|r [|r' rest]]; simpl in *; try lia.
  assert (i = 0) by lia. subst i. simpl in Hi. inversion Hi. auto.
Qed.

Lemma settle_full rq o s :
  inflight s = [] ->
  (hasMoreResults s = true \/ rq_append rq = true ->
   exists k, List.length (books s) = 12 * k) ->
  fullPagesSoFar (fetchBooksSettle rq o s).
Proof.
  intros Hi Inv. unfold fullPagesSoFar.
  rewrite fetchBooksSettle_inflight, Hi. intros [H|H]; [|inversion H].
  revert H. unfold fetchBooksSettle.
  destruct o as [m|st|m|[[|b l]|]]; cbn [thrown];
    destruct (rq_append rq) eqn:Ha; cbn; intros H;
    try discriminate H;
    try (apply Inv; auto; fail);
    try (exists 0; reflexivity).
  - destruct Inv as [k Hk]; [auto|].
    apply Nat.eqb_eq in H. exists (S k).
    rewrite length_app. cbn [List.length]. lia.
  - apply Nat.eqb_eq in H. exists 1. cbn [List.length]. lia.
Qed.

Lemma step_full s e :
  inflightMatchesLoading s -> fullPagesSoFar s ->
  match e with
  | Submit | QuickSearch _ _ => loading s = false
  | _ => True
  end ->
  fullPagesSoFar (step s e).
Proof.
  intros Inv1 Inv2 Hg.
  destruct e as [text| | |v|type q|v|i o]; cbn [step].
  - exact Inv2.
  - unfold handleSearch.
    destruct (truthy_string (trim (searchQuery s))); [|exact Inv2].
    apply fetchBooks_full; [|discriminate|exact Inv2].
    apply (idle_nothing_inflight s Inv1 Hg).
  - unfold handleLoadMore.
    destruct (hasMoreResults s && negb (loading s)) eqn:E; [|exact Inv2].
    apply andb_true_iff in E. destruct E as [Hm Hl].
    apply negb_true_iff in Hl.
    apply fetchBooks_full; [|auto|exact Inv2].
    apply (idle_nothing_inflight s Inv1 Hl).
  - intros _. exists 0. reflexivity.
  - unfold handleQuickSearch.
    apply fetchBooks_full; [|discriminate|exact Inv2].
    apply (idle_nothing_inflight s Inv1 Hg).
  - exact Inv2.
  - destruct (nth_error (inflight s) i) as [rq|] eqn:Hi; [|exact Inv2].
    destruct (only_request s i rq Inv1 Hi) as [Hone Hz]. subst i.
    apply settle_full.
    + rewrite Hone. reflexivity.
    + intros H. apply Inv2. destruct H as [H|H]; [left; exact H|].
      right. rewrite Hone. constructor. exact H.
Qed.

Lemma run_full es :
  forall s,
    inflightMatchesLoading s -> fullPagesSoFar s ->
    searchesOnlyWhenIdle s es = true ->
    fullPagesSoFar (run s es).
Proof.
  induction es as [|e es IH]; intros s Inv1 Inv2 Hg; [exact Inv2|].
  cbn [searchesOnlyWhenIdle] in Hg.
  apply andb_true_iff in Hg. destruct Hg as [He Hes].
  assert (Hguard : match e with
                   | Submit | QuickSearch _ _ => loading s = false
                   | _ => True
                   end).
  { destruct e; try exact I; apply negb_true_iff, He. }
  unfold run. cbn [fold_left]. apply IH.
  - apply step_matches; assumption.
  - apply step_full; assumption.
  - exact Hes.
Qed.

End FullPageFacts.

Section FullPageExtras.

(** X15. In every run from the initial state in which a search is only
    started while nothing is loading, more results are offered only when
    the results on display are a whole number of full pages of 12. *)
Theorem more_offered_after_full_pages (es : list Event)
  (Hguard : searchesOnlyWhenIdle initialState es = true)
  (Hmore : hasMoreResults (run initialState es) = true) :
  exists k, List.length (books (run initialState es)) = 12 * k.
Proof.
  apply (run_full es initialState); try assumption.
  - reflexivity.
  - intros _. exists 0. reflexivity.
  - left. exact Hmore.
Qed.

Lemma more_offered_after_full_pages_witness :
  let es := [Type_ (str "dune"); Submit; Arrive 0 (Json (Some fullPage));
             LoadMore; Arrive 0 (Json (Some fullPage))] in
  searchesOnlyWhenIdle initialState es = true
  /\ hasMoreResults (run initialState es) = true
  /\ exists k, List.length (books (run initialState es)) = 12 * k.
Proof.
  intros es.
  assert (Hg : searchesOnlyWhenIdle initialState es = true) by reflexivity.
  assert (Hm : hasMoreResults (run initialState es) = true) by reflexivity.
  split; [exact Hg|]. split; [exact Hm|].
  exact (more_offered_after_full_pages es Hg Hm).
Defined.

End FullPageExtras.

Section HandlerFacts.

Lemma issuedFetch_same s s' :
  inflight s' = inflight s -> issuedFetch s s' = false.
Proof.
  intros H. unfold issuedFetch. rewrite H. apply Nat.eqb_neq. lia.
Qed.

Lemma fetchBooks_effect q type page append s :
  issuedFetch s (fetchBooks q type page append s)
  = negb (blank q) && isWellFormed q
  /\ (blank q = false -> isWellFormed q = true ->
      loading (fetchBooks q type page append s) = true
      /\ error (fetchBooks q type page append s) = None
      /\ books (fetchBooks q type page append s) = books s
      /\ hasMoreResults (fetchBooks q type page append s) = hasMoreResults s).
Proof.
  unfold fetchBooks. destruct (blank q); [|destruct (isWellFormed q)];
    split; try discriminate.
  - apply issuedFetch_same. reflexivity.
  - unfold issuedFetch. cbn [inflight setInflight setError setLoading].
    rewrite length_app. cbn. apply Nat.eqb_eq. lia.
  - intros _ _. cbn. auto.
  - apply issuedFetch_same. destruct append; reflexivity.
Qed.

Lemma failed_loadMoreRound s o message :
  thrown o = Some message ->
  hasMoreResults s = true -> loading s = false ->
  blank (searchQuery s) = false -> isWellFormed (searchQuery s) = true ->
  loadMoreRound o s
  = setLoading false
      (setError (Some (str "Failed to fetch books: " ++ message)) s).
Proof.
  intros Hf Hm Hl Hq Hw. rewrite loadMoreRound_eq by assumption.
  unfold fetchBooksSettle. rewrite Hf. destruct s; reflexivity.
Qed.

Lemma failed_searchRound s o message :
  thrown o = Some message ->
  blank (searchQuery s) = false -> isWellFormed (searchQuery s) = true ->
  searchRound o s
  = setLoading false
      (setBooks []
         (setError (Some (str "Failed to fetch books: " ++ message))
            (setCurrentPage 1 s))).
Proof.
  intros Hf Hq Hw. rewrite searchRound_eq by assumption.
  unfold fetchBooksSettle. rewrite Hf. destruct s; reflexivity.
Qed.

End HandlerFacts.

Section HandlerExtras.

(** X16. Only a search from the form, a quick search and "Load More" ever
    send a request; an event that sends one sets the loading flag and clears
    the error message, and leaves the results on display and
    [hasMoreResults] as they were until the response arrives. *)
Theorem sending_keeps_results (s : State) (e : Event)
  (Hsent : issuedFetch s (step s e) = true) :
  match e with Submit | LoadMore | QuickSearch _ _ => True | _ => False end
  /\ loading (step s e) = true
  /\ error (step s e) = None
  /\ books (step s e) = books s
  /\ hasMoreResults (step s e) = hasMoreResults s.
Proof.
  destruct e as [text| | |v|type q|v|i o]; cbn [step] in *.
  - rewrite issuedFetch_same in Hsent by reflexivity. discriminate.
  - split; [exact I|]. unfold handleSearch in *.
    destruct (truthy_string (trim (searchQuery s)));
      [|rewrite issuedFetch_same in Hsent by reflexivity; discriminate].
    cbv zeta in *.
    destruct (fetchBooks_effect (searchQuery (setCurrentPage 1 s))
                (searchType (setCurrentPage 1 s)) 1 false
                (setCurrentPage 1 s)) as [Hi He].
    assert (Hsame : issuedFetch s
                      (fetchBooks (searchQuery (setCurrentPage 1 s))
                         (searchType (setCurrentPage 1 s)) 1 false
                         (setCurrentPage 1 s))
                    = issuedFetch (setCurrentPage 1 s)
                        (fetchBooks (searchQuery (setCurrentPage 1 s))
                           (searchType (setCurrentPage 1 s)) 1 false
                           (setCurrentPage 1 s))) by reflexivity.
    rewrite Hsame, Hi in Hsent. apply andb_true_iff in Hsent.
    destruct Hsent as [Hb Hw]. apply negb_true_iff in Hb.
    apply He; assumption.
  - split; [exact I|]. unfold handleLoadMore in *.
    destruct (hasMoreResults s && negb (loading s));
      [|rewrite issuedFetch_same in Hsent by reflexivity; discriminate].
    destruct (fetchBooks_effect (searchQuery s) (searchType s)
                (currentPage s + 1) true s) as [Hi He].
    rewrite Hi in Hsent. apply andb_true_iff in Hsent.
    destruct Hsent as [Hb Hw]. apply negb_true_iff in Hb.
    apply He; assumption.
  - rewrite issuedFetch_same in Hsent by reflexivity. discriminate.
  - split; [exact I|]. unfold handleQuickSearch in *. cbv zeta in *.
    set (s1 := setCurrentPage 1 (setSearchQuery q (setSearchType type s)))
      in *.
    destruct (fetchBooks_effect q type 1 false s1) as [Hi He].
    assert (Hsame : issuedFetch s (fetchBooks q type 1 false s1)
                    = issuedFetch s1 (fetchBooks q type 1 false s1))
      by reflexivity.
    rewrite Hsame, Hi in Hsent. apply andb_true_iff in Hsent.
    destruct Hsent as [Hb Hw]. apply negb_true_iff in Hb.
    apply He; assumption.
  - rewrite issuedFetch_same in Hsent by reflexivity. discriminate.
  - exfalso. destruct (nth_error (inflight s) i) as [rq|] eqn:Hi.
    + unfold issuedFetch in Hsent. apply Nat.eqb_eq in Hsent.
      rewrite fetchBooksSettle_inflight in Hsent.
      cbn [inflight setInflight] in Hsent.
      pose proof (length_without (inflight s) i Hi). lia.
    + rewrite issuedFetch_same in Hsent by reflexivity. discriminate.
Qed.

Lemma sending_keeps_results_witness :
  issuedFetch firstPageShown (step firstPageShown LoadMore) = true
  /\ books (step firstPageShown LoadMore) = fullPage
  /\ loading (step firstPageShown LoadMore) = true.
Proof.
  assert (H : issuedFetch firstPageShown (step firstPageShown LoadMore) = true)
    by reflexivity.
  pose proof (sending_keeps_results firstPageShown LoadMore H)
    as [_ [Hl [_ [Hb _]]]].
  split; [exact H|]. split; [rewrite Hb; reflexivity|exact Hl].
Defined.

(** X17. A failed fetch, for a query that is not blank and is accepted by
    [encodeURIComponent], is forgotten by the next one of its kind: after a
    failed "Load More" the same page is asked for again, and the state after
    a response to the retry is the one a response to the first request would
    have given; likewise for a search repeated after a failed search. *)
Theorem retry_after_failure (s : State) (o o' : Outcome) (message : jsstring)
  (Hfail : thrown o = Some message)
  (Hquery : blank (searchQuery s) = false)
  (Hencodes : isWellFormed (searchQuery s) = true) :
  searchRound o' (searchRound o s) = searchRound o' s
  /\ (hasMoreResults s = true -> loading s = false ->
      inflight (handleLoadMore (loadMoreRound o s)) = inflight (handleLoadMore s)
      /\ loadMoreRound o' (loadMoreRound o s) = loadMoreRound o' s).
Proof.
  split.
  - rewrite (failed_searchRound s o message Hfail Hquery Hencodes).
    rewrite !searchRound_eq by first [exact Hquery | exact Hencodes].
    unfold fetchBooksSettle.
    destruct (thrown o'); [|destruct o' as [m|st|m|[[|b l]|]]];
      destruct s; reflexivity.
  - intros Hm Hl.
    rewrite (failed_loadMoreRound s o message Hfail Hm Hl Hquery Hencodes).
    split.
    + rewrite !handleLoadMore_sent
        by first [exact Hm | exact Hl | exact Hquery | exact Hencodes
                  | reflexivity].
      reflexivity.
    + rewrite !loadMoreRound_eq
        by first [exact Hm | exact Hl | exact Hquery | exact Hencodes
                  | reflexivity].
      unfold fetchBooksSettle.
      destruct (thrown o'); [|destruct o' as [m|st|m|[[|b l]|]]];
        destruct s; reflexivity.
Qed.

Lemma retry_after_failure_witness :
  thrown (Rejected (str "Failed to fetch")) = Some (str "Failed to fetch")
  /\ (blank (searchQuery firstPageShown) = false
      /\ isWellFormed (searchQuery firstPageShown) = true)
  /\ hasMoreResults firstPageShown = true
  /\ loading firstPageShown = false
  /\ loadMoreRound (Json (Some [emma]))
       (loadMoreRound (Rejected (str "Failed to fetch")) firstPageShown)
     = loadMoreRound (Json (Some [emma])) firstPageShown.
Proof.
  assert (Hf : thrown (Rejected (str "Failed to fetch"))
               = Some (str "Failed to fetch")) by reflexivity.
  assert (Hq : blank (searchQuery firstPageShown) = false) by reflexivity.
  assert (Hw : isWellFormed (searchQuery firstPageShown) = true)
    by reflexivity.
  assert (Hm : hasMoreResults firstPageShown = true) by reflexivity.
  assert (Hl : loading firstPageShown = false) by reflexivity.
  split; [exact Hf|]. split; [split; [exact Hq|exact Hw]|].
  split; [exact Hm|]. split; [exact Hl|].
  exact (proj2 (proj2 (retry_after_failure firstPageShown
                         (Rejected (str "Failed to fetch"))
                         (Json (Some [emma])) (str "Failed to fetch")
                         Hf Hq Hw)
                  Hm Hl)).
Defined.

End HandlerExtras.

Section SearchInputExtras.

(** X18. Changing the search type empties the results, puts the page back
    to 1 and makes "Load More" do nothing, but it neither sends a request
    nor drops one: a "Load More" response still outstanding then arrives
    under the new type, and its records become the results. *)
Theorem searchType_change_keeps_requests (s : State) (v : SearchType) :
  let s' := handleSearchTypeChange v s in
  books s' = []
  /\ currentPage s' = 1%Z
  /\ handleLoadMore s' = s'
  /\ inflight s' = inflight s
  /\ loading s' = loading s
  /\ (forall i rq b l,
         nth_error (inflight s) i = Some rq -> rq_append rq = true ->
         let s'' := step s' (Arrive i (Json (Some (b :: l)))) in
         books s'' = b :: l /\ searchType s'' = v
         /\ currentPage s'' = rq_page rq).
Proof.
  intros s'. subst s'.
  split; [reflexivity|]. split; [reflexivity|]. split; [reflexivity|].
  split; [reflexivity|]. split; [reflexivity|].
  intros i rq b l Hi Ha s''. subst s''.
  unfold step.
  change (inflight (handleSearchTypeChange v s)) with (inflight s).
  rewrite Hi. unfold fetchBooksSettle. cbn [thrown]. rewrite Ha.
  destruct s; repeat split; reflexivity.
Qed.

Lemma searchType_change_keeps_requests_witness :
  nth_error (inflight (step firstPageShown LoadMore)) 0
  = Some (mkRequest (str "dune") TitleSearch 2 true noFilters)
  /\ books (run firstPageShown
              [LoadMore; ChangeSearchType AuthorSearch;
               Arrive 0 (Json (Some [emma; ulysses]))])
     = [emma; ulysses].
Proof.
  assert (Hi : nth_error (inflight (step firstPageShown LoadMore)) 0
               = Some (mkRequest (str "dune") TitleSearch 2 true noFilters))
    by reflexivity.
  split; [exact Hi|].
  destruct (searchType_change_keeps_requests
              (step firstPageShown LoadMore) AuthorSearch)
    as [_ [_ [_ [_ [_ H]]]]].
  exact (proj1 (H 0 _ emma [ulysses] Hi eq_refl)).
Defined.

(** X19. A quick search with a query that is not blank is the search from
    the form with the type and the query put in first, and it sends its
    request when [encodeURIComponent] accepts the query; each of the eight
    suggestions offered has such a query, and so sends its request from
    every state. *)
Theorem quickSearch_is_search (type : SearchType) (q : jsstring) (s : State) :
  (blank q = false ->
   handleQuickSearch type q s
   = handleSearch (setSearchQuery q (setSearchType type s)))
  /\ (blank q = false -> isWellFormed q = true ->
      issuedFetch s (handleQuickSearch type q s) = true)
  /\ Forall (fun sg => blank (sg_query sg) = false
                       /\ isWellFormed (sg_query sg) = true
                       /\ issuedFetch s
                            (handleQuickSearch (sg_type sg) (sg_query sg) s)
                          = true)
       quickSearchSuggestions
  /\ List.length quickSearchSuggestions = 8.
Proof.
  assert (Hsends : forall t x,
             blank x = false -> isWellFormed x = true ->
             issuedFetch s (handleQuickSearch t x s) = true).
  { intros t x Hb Hw. rewrite handleQuickSearch_sent by assumption.
    unfold issuedFetch. cbn [inflight setInflight setError setLoading
                                setCurrentPage setSearchQuery setSearchType].
    rewrite length_app. cbn. apply Nat.eqb_eq. lia. }
  split; [|split; [|split]].
  - intros Hq. unfold handleQuickSearch, handleSearch.
    cbn [searchQuery searchType setSearchQuery setSearchType setCurrentPage].
    rewrite (proj1 (blank_false_truthy _) Hq). reflexivity.
  - apply Hsends.
  - repeat constructor; apply Hsends; reflexivity.
  - reflexivity.
Qed.

Lemma quickSearch_is_search_witness :
  blank (str "Stephen King") = false
  /\ isWellFormed (str "Stephen King") = true
  /\ issuedFetch searching
       (handleQuickSearch AuthorSearch (str "Stephen King") searching) = true.
Proof.
  assert (H : blank (str "Stephen King") = false) by reflexivity.
  assert (Hw : isWellFormed (str "Stephen King") = true) by reflexivity.
  split; [exact H|]. split; [exact Hw|].
  exact (proj1 (proj2 (quickSearch_is_search
                         AuthorSearch (str "Stephen King") searching)) H Hw).
Defined.

(** X20. "Load More" asks for the next page of whatever text is in the
    input at the time of the click, not of the query the results came from:
    after the text is changed to one that is not blank and that
    [encodeURIComponent] accepts, the request carries the new text and its
    records are appended to the old results; with a blank text the click
    does nothing; with a text [encodeURIComponent] rejects it sends nothing,
    keeps the results and reports the error. *)
Theorem loadMore_uses_current_text (s : State) (text : jsstring)
  (Hmore : hasMoreResults s = true) (Hidle : loading s = false) :
  (blank text = false -> isWellFormed text = true ->
   inflight (run s [Type_ text; LoadMore])
   = inflight s
     ++ [mkRequest text (searchType s) (currentPage s + 1) true (filters s)]
   /\ forall b l,
       books (run s [Type_ text; LoadMore;
                     Arrive (List.length (inflight s))
                            (Json (Some (b :: l)))])
       = books s ++ b :: l)
  /\ (blank text = true ->
      run s [Type_ text; LoadMore] = setSearchQuery text s)
  /\ (blank text = false -> isWellFormed text = false ->
      inflight (run s [Type_ text; LoadMore]) = inflight s
      /\ books (run s [Type_ text; LoadMore]) = books s
      /\ loading (run s [Type_ text; LoadMore]) = false
      /\ error (run s [Type_ text; LoadMore])
         = Some (str "Failed to fetch books: " ++ uriErrorMessage)).
Proof.
  split; [|split].
  - intros Hq Hw.
    assert (Hsent : run s [Type_ text; LoadMore]
                    = setInflight
                        (inflight s
                         ++ [mkRequest text (searchType s) (currentPage s + 1)
                               true (filters s)])
                        (setError None
                           (setLoading true (setSearchQuery text s)))).
    { unfold run. cbn [fold_left step].
      rewrite handleLoadMore_sent
        by first [exact Hmore | exact Hidle | exact Hq | exact Hw].
      reflexivity. }
    split; [rewrite Hsent; reflexivity|].
    intros b l.
    change (run s [Type_ text; LoadMore;
                   Arrive (List.length (inflight s)) (Json (Some (b :: l)))])
      with (step (run s [Type_ text; LoadMore])
              (Arrive (List.length (inflight s)) (Json (Some (b :: l))))).
    rewrite Hsent. erewrite arrive_last by reflexivity.
    destruct s; reflexivity.
  - intros Hq. unfold run. cbn [fold_left step]. apply handleLoadMore_idle.
    cbn. rewrite Hq. apply andb_false_r.
  - intros Hq Hw. unfold run. cbn [fold_left step].
    unfold handleLoadMore.
    cbn [hasMoreResults loading searchQuery searchType currentPage
           setSearchQuery].
    rewrite Hmore, Hidle. cbn [andb negb].
    rewrite fetchBooks_malformed by assumption.
    destruct s; repeat split; reflexivity.
Qed.

Lemma loadMore_uses_current_text_witness :
  hasMoreResults firstPageShown = true
  /\ loading firstPageShown = false
  /\ (blank (str "emma") = false /\ isWellFormed (str "emma") = true)
  /\ inflight (run firstPageShown [Type_ (str "emma"); LoadMore])
     = [mkRequest (str "emma") TitleSearch 2 true noFilters]
  /\ (blank loneSurrogate = false /\ isWellFormed loneSurrogate = false)
  /\ inflight (run firstPageShown [Type_ loneSurrogate; LoadMore]) = [].
Proof.
  assert (Hm : hasMoreResults firstPageShown = true) by reflexivity.
  assert (Hl : loading firstPageShown = false) by reflexivity.
  assert (Hq : blank (str "emma") = false) by reflexivity.
  assert (Hw : isWellFormed (str "emma") = true) by reflexivity.
  assert (Hq' : blank loneSurrogate = false) by reflexivity.
  assert (Hw' : isWellFormed loneSurrogate = false) by reflexivity.
  split; [exact Hm|]. split; [exact Hl|]. split; [split; assumption|].
  split.
  - exact (proj1 (proj1 (loadMore_uses_current_text
                           firstPageShown (str "emma") Hm Hl) Hq Hw)).
  - split; [split; assumption|].
    exact (proj1 (proj2 (proj2 (loadMore_uses_current_text
                                  firstPageShown loneSurrogate Hm Hl))
                    Hq' Hw')).
Defined.

End SearchInputExtras.

Section ViewExtras.

(** X21. The results, the "No books found" panel and the welcome panel
    never show together, and exactly one of them shows whenever nothing is
    loading and no error is displayed. *)
Theorem one_panel_at_a_time (s : State) :
  Nat.b2n (showsResults s) + Nat.b2n (showsNoResults s)
  + Nat.b2n (showsWelcome s) <= 1
  /\ (loading s = false -> showsError s = false ->
      Nat.b2n (showsResults s) + Nat.b2n (showsNoResults s)
      + Nat.b2n (showsWelcome s) = 1).
Proof.
  unfold showsResults, showsNoResults, showsWelcome, showsError.
  destruct (loading s), (Nat.eqb (List.length (books s)) 0),
    (truthy_string (searchQuery s)), (truthy_error (error s));
    cbn; split; intros; try lia; discriminate.
Qed.

Lemma one_panel_at_a_time_witness :
  loading firstPageShown = false
  /\ showsError firstPageShown = false
  /\ Nat.b2n (showsResults firstPageShown)
     + Nat.b2n (showsNoResults firstPageShown)
     + Nat.b2n (showsWelcome firstPageShown) = 1.
Proof.
  assert (Hl : loading firstPageShown = false) by reflexivity.
  assert (He : showsError firstPageShown = false) by reflexivity.
  split; [exact Hl|]. split; [exact He|].
  exact (proj2 (one_panel_at_a_time firstPageShown) Hl He).
Defined.

(** X22. From the welcome panel, typing any text, white space included,
    hides it without a request being sent: "No books found" comes up when
    no error is displayed, and when one is displayed none of the three
    panels shows. *)
Theorem typing_shows_no_results (s : State) (text : jsstring)
  (Hwelcome : showsWelcome s = true)
  (Htext : text <> []) :
  showsNoResults (step s (Type_ text)) = negb (showsError s)
  /\ showsWelcome (step s (Type_ text)) = false
  /\ showsResults (step s (Type_ text)) = false
  /\ inflight (step s (Type_ text)) = inflight s.
Proof.
  unfold showsWelcome, showsNoResults, showsResults, showsError in *. cbn.
  apply andb_true_iff in Hwelcome. destruct Hwelcome as [Hw _].
  apply andb_true_iff in Hw. destruct Hw as [Hl Hb].
  rewrite Hl, Hb.
  destruct text as [|c r]; [congruence|]. cbn. auto.
Qed.

Lemma typing_shows_no_results_witness :
  showsWelcome initialState = true
  /\ [32%N] <> []
  /\ showsNoResults (step initialState (Type_ [32%N])) = true.
Proof.
  assert (Hw : showsWelcome initialState = true) by reflexivity.
  assert (Ht : [32%N] <> []) by discriminate.
  split; [exact Hw|]. split; [exact Ht|].
  exact (proj1 (typing_shows_no_results initialState [32%N] Hw Ht)).
Defined.

(** X23. A button that can be clicked and sends its request disables
    itself: when the submit button is enabled and [encodeURIComponent]
    accepts the query, a search sends a request and the button is disabled
    afterwards; when "Load More" is shown and enabled and the input is
    neither blank nor rejected, a click sends a request and the button, still
    shown, is disabled afterwards.  When the submit button is enabled and
    [encodeURIComponent] rejects the query, a search sends nothing, empties
    the results, shows the error and leaves the button enabled. *)
Theorem buttons_disable_themselves (s : State) :
  (submitDisabled s = false -> isWellFormed (searchQuery s) = true ->
   issuedFetch s (handleSearch s) = true
   /\ submitDisabled (handleSearch s) = true)
  /\ (showsLoadMore s = true -> loadMoreDisabled s = false ->
      blank (searchQuery s) = false -> isWellFormed (searchQuery s) = true ->
      issuedFetch s (handleLoadMore s) = true
      /\ showsLoadMore (handleLoadMore s) = true
      /\ loadMoreDisabled (handleLoadMore s) = true)
  /\ (submitDisabled s = false -> isWellFormed (searchQuery s) = false ->
      issuedFetch s (handleSearch s) = false
      /\ books (handleSearch s) = []
      /\ showsError (handleSearch s) = true
      /\ submitDisabled (handleSearch s) = false).
Proof.
  split; [|split].
  - unfold submitDisabled. intros H Hw. apply orb_false_iff in H.
    destruct H as [_ Hq]. rewrite handleSearch_sent by assumption.
    split; [|reflexivity].
    unfold issuedFetch. cbn. rewrite length_app. cbn.
    apply Nat.eqb_eq. lia.
  - unfold showsLoadMore, loadMoreDisabled. intros Hs Hl Hq Hw.
    apply andb_true_iff in Hs. destruct Hs as [Hr Hm].
    rewrite handleLoadMore_sent by assumption.
    split; [|split].
    + unfold issuedFetch. cbn. rewrite length_app. cbn.
      apply Nat.eqb_eq. lia.
    + unfold showsResults in *. cbn. rewrite Hr, Hm. reflexivity.
    + reflexivity.
  - unfold submitDisabled. intros H Hw. apply orb_false_iff in H.
    destruct H as [_ Hq]. unfold handleSearch.
    rewrite (proj1 (blank_false_truthy _) Hq). cbv zeta.
    rewrite fetchBooks_malformed by first [exact Hq | exact Hw].
    split; [apply issuedFetch_same; destruct s; reflexivity|].
    split; [destruct s; reflexivity|].
    split; [destruct s; reflexivity|].
    cbn. exact Hq.
Qed.

Lemma buttons_disable_themselves_witness :
  submitDisabled firstPageShown = false
  /\ isWellFormed (searchQuery firstPageShown) = true
  /\ showsLoadMore firstPageShown = true
  /\ loadMoreDisabled firstPageShown = false
  /\ blank (searchQuery firstPageShown) = false
  /\ submitDisabled (handleSearch firstPageShown) = true
  /\ loadMoreDisabled (handleLoadMore firstPageShown) = true
  /\ submitDisabled malformedTyped = false
  /\ isWellFormed (searchQuery malformedTyped) = false
  /\ submitDisabled (handleSearch malformedTyped) = false.
Proof.
  assert (H1 : submitDisabled firstPageShown = false) by reflexivity.
  assert (Hw : isWellFormed (searchQuery firstPageShown) = true)
    by reflexivity.
  assert (H2 : showsLoadMore firstPageShown = true) by reflexivity.
  assert (H3 : loadMoreDisabled firstPageShown = false) by reflexivity.
  assert (H4 : blank (searchQuery firstPageShown) = false) by reflexivity.
  assert (H5 : submitDisabled malformedTyped = false) by reflexivity.
  assert (H6 : isWellFormed (searchQuery malformedTyped) = false)
    by reflexivity.
  destruct (buttons_disable_themselves firstPageShown) as [Hs [Hm _]].
  destruct (buttons_disable_themselves malformedTyped) as [_ [_ Hbad]].
  split; [exact H1|]. split; [exact Hw|]. split; [exact H2|].
  split; [exact H3|]. split; [exact H4|].
  split; [exact (proj2 (Hs H1 Hw))|].
  split; [exact (proj2 (proj2 (Hm H2 H3 H4 Hw)))|].
  split; [exact H5|]. split; [exact H6|].
  exact (proj2 (proj2 (proj2 (Hbad H5 H6)))).
Defined.

(** X24. Filter changes compose as assignments: the last value given to a
    filter wins, changes to different filters commute, and clearing undoes
    them all.  A change sends nothing and leaves the outstanding requests
    alone; the next search that sends a request (its query not blank and
    accepted by [encodeURIComponent]) carries the filters as changed. *)
Theorem filter_changes_compose (n m : FilterName) (v w : jsstring)
  (s : State) :
  handleFilterChange n v (handleFilterChange n w s) = handleFilterChange n v s
  /\ (n <> m ->
      handleFilterChange n v (handleFilterChange m w s)
      = handleFilterChange m w (handleFilterChange n v s))
  /\ clearFilters (handleFilterChange n v s) = clearFilters s
  /\ inflight (handleFilterChange n v s) = inflight s
  /\ (blank (searchQuery s) = false -> isWellFormed (searchQuery s) = true ->
      inflight (handleSearch (handleFilterChange n v s))
      = inflight s
        ++ [mkRequest (searchQuery s) (searchType s) 1 false
              (filters (handleFilterChange n v s))]).
Proof.
  split; [destruct n; reflexivity|].
  split; [intros H; destruct n, m; try reflexivity; congruence|].
  split; [reflexivity|]. split; [reflexivity|].
  intros Hq Hw. rewrite handleSearch_sent by first [exact Hq | exact Hw].
  reflexivity.
Qed.

Lemma filter_changes_compose_witness :
  YearFrom <> Language
  /\ (blank (searchQuery typed) = false
      /\ isWellFormed (searchQuery typed) = true)
  /\ handleFilterChange YearFrom (str "1990")
       (handleFilterChange Language (str "eng") typed)
     = handleFilterChange Language (str "eng")
         (handleFilterChange YearFrom (str "1990") typed)
  /\ inflight (handleSearch (handleFilterChange YearFrom (str "1990") typed))
     = [mkRequest (str "dune") TitleSearch 1 false
          (mkFilters (str "1990") [] [] [])].
Proof.
  assert (Hn : YearFrom <> Language) by discriminate.
  assert (Hq : blank (searchQuery typed) = false) by reflexivity.
  assert (Hw : isWellFormed (searchQuery typed) = true) by reflexivity.
  destruct (filter_changes_compose YearFrom Language
              (str "1990") (str "eng") typed)
    as [_ [Hc [_ [_ Hs]]]].
  split; [exact Hn|]. split; [split; assumption|].
  split; [exact (Hc Hn)|exact (Hs Hq Hw)].
Defined.

End ViewExtras.

Section GuardExtras.

(** X25. While a fetch is loading, "Load More" does nothing and the view
    lets neither the form be submitted nor "Load More" be clicked.  In every
    run from the initial state that the view can deliver and in which no
    suggestion is clicked while a fetch is loading, there is at no point
    more than one request outstanding. *)
Theorem one_request_unless_suggestion_while_loading (s : State)
  (before after : list Event) :
  (loading s = true ->
   handleLoadMore s = s
   /\ viewAllows s Submit = false
   /\ viewAllows s LoadMore = false)
  /\ (viewDelivers initialState (before ++ after) = true ->
      suggestionsOnlyWhenIdle initialState (before ++ after) = true ->
      List.length (inflight (run initialState before)) <= 1).
Proof.
  split.
  - intros H. split; [apply handleLoadMore_loading, H|].
    cbn [viewAllows]. unfold submitDisabled, loadMoreDisabled.
    rewrite H. split; [reflexivity|apply andb_false_r].
  - intros Hv Hs.
    pose proof (viewDelivers_guard (before ++ after) initialState Hv Hs) as H.
    apply searchesOnlyWhenIdle_prefix in H.
    assert (Inv : inflightMatchesLoading (run initialState before)).
    { apply run_matches; [reflexivity|exact H]. }
    unfold inflightMatchesLoading in Inv. rewrite Inv.
    destruct (loading (run initialState before)); lia.
Qed.

Lemma one_request_unless_suggestion_while_loading_witness :
  let before := [Type_ (str "dune"); Submit;
                 Arrive 0 (Json (Some fullPage)); LoadMore] in
  let after := [Arrive 0 (Json (Some fullPage));
                QuickSearch TitleSearch (str "1984")] in
  loading thirdPageLoading = true
  /\ handleLoadMore thirdPageLoading = thirdPageLoading
  /\ viewDelivers initialState (before ++ after) = true
  /\ suggestionsOnlyWhenIdle initialState (before ++ after) = true
  /\ List.length (inflight (run initialState before)) <= 1.
Proof.
  intros before after.
  assert (Hl : loading thirdPageLoading = true) by reflexivity.
  assert (Hv : viewDelivers initialState (before ++ after) = true)
    by reflexivity.
  assert (Hs : suggestionsOnlyWhenIdle initialState (before ++ after) = true)
    by reflexivity.
  pose proof (one_request_unless_suggestion_while_loading
                thirdPageLoading before after) as [Hnoop Hone].
  split; [exact Hl|]. split; [exact (proj1 (Hnoop Hl))|].
  split; [exact Hv|]. split; [exact Hs|exact (Hone Hv Hs)].
Defined.

(** X26. A query that is not blank but that [encodeURIComponent] rejects
    (a surrogate standing alone) makes [fetchBooks] fail before anything is
    sent: no request goes out, the error is reported, nothing is left
    loading, the results are emptied for a search and kept for "Load More",
    and the page and [hasMoreResults] stay as they were. *)
Theorem malformed_query_reports_error (q : jsstring) (type : SearchType)
  (page : Z) (append : bool) (s : State)
  (Hq : blank q = false) (Hw : isWellFormed q = false) :
  let s' := fetchBooks q type page append s in
  inflight s' = inflight s
  /\ status s' = Failed
  /\ error s' = Some (str "Failed to fetch books: " ++ uriErrorMessage)
  /\ books s' = (if append then books s else [])
  /\ currentPage s' = currentPage s
  /\ hasMoreResults s' = hasMoreResults s.
Proof.
  intros s'. subst s'. rewrite fetchBooks_malformed by assumption.
  destruct append; destruct s; repeat split; reflexivity.
Qed.

Lemma malformed_query_reports_error_witness :
  blank loneSurrogate = false
  /\ isWellFormed loneSurrogate = false
  /\ inflight (handleSearch malformedTyped) = []
  /\ books (handleSearch malformedTyped) = []
  /\ status (handleSearch malformedTyped) = Failed.
Proof.
  assert (Hq : blank loneSurrogate = false) by reflexivity.
  assert (Hw : isWellFormed loneSurrogate = false) by reflexivity.
  pose proof (malformed_query_reports_error loneSurrogate TitleSearch 1 false
                (setCurrentPage 1 malformedTyped) Hq Hw)
    as [Hi [Hs [_ [Hb _]]]].
  split; [exact Hq|]. split; [exact Hw|].
  split; [exact Hi|]. split; [exact Hb|exact Hs].
Defined.

End GuardExtras.
